(** * StudyMate: the session script (app.py) and its in-memory vector store

    The development has two layers.

    - [VectorStore]: the linear-scan cosine-similarity index behind
      [SimpleVectorStore].  The module [vector_store] is imported by app.py
      but is not part of the sources at hand, so its three operations are
      written down from the specification (section 4.1).
    - [App]: the Streamlit script app.py, one run of the script as a
      computation in a state-and-exception monad over the session state, the
      messages put on the page and the calls made to the collaborators.

    Numbers: similarity scores are Python floats in the program.  They are
    modelled as real numbers, so rounding, infinities and NaN are outside
    the model; a division by zero is an exception, as it is for Python
    floats. *)

From Stdlib Require Import List Arith ZArith Lia Bool String Ascii DecimalString.
From Stdlib Require Import Reals Lra Permutation Sorting.Sorted.
Import ListNotations.
Open Scope string_scope.
Open Scope list_scope.

Set Implicit Arguments.

(** ** Exceptions and results *)

(** The exceptions the model distinguishes.  [StoreError] is the store's
    length-mismatch error, [ZeroDivisionError] a division by zero,
    [IndexError] an out-of-range subscript, [Failure] any exception raised
    inside an external collaborator, with its message. *)
Inductive exn : Type :=
| StoreError (msg : string)
| ZeroDivisionError
| IndexError
| Failure (msg : string).

(** [str(e)], as interpolated into the page's messages. *)
Definition exn_str (e : exn) : string :=
  match e with
  | StoreError msg => msg
  | ZeroDivisionError => "float division by zero"
  | IndexError => "list index out of range"
  | Failure msg => msg
  end.

Inductive result (A : Type) : Type :=
| Ok (a : A)
| Raise (e : exn).
Arguments Ok {A} a.
Arguments Raise {A} e.

Definition rbind {A B} (r : result A) (k : A -> result B) : result B :=
  match r with
  | Ok a => k a
  | Raise e => Raise e
  end.

(** ** Data model *)

(** An embedding is an ordered numeric vector. *)
Definition embedding : Type := list R.

(** The metadata mapping built by app.py for every chunk:
    [{"document": uf.name, "chunk_index": idx, "text": chunk}]. *)
Record metadata : Type := Metadata {
  document : string;
  chunk_index : nat;
  text : string
}.

(** One search hit, [{"score": ..., "metadata": ...}]. *)
Record hit : Type := Hit {
  score : R;
  hit_metadata : metadata
}.

Module VectorStore.

(** Modelled from the spec: the class [SimpleVectorStore] of the module
    [vector_store] is missing from the sources.  A store entry pairs one
    embedding with one metadata record; entries are kept in insertion
    order. *)
Definition store : Type := list (embedding * metadata).

(** Modelled from the spec: the store is created empty at session start
    ([SimpleVectorStore()], missing from the sources). *)
Definition empty : store := [].

Definition size (s : store) : nat := List.length s.

(** Modelled from the spec: [SimpleVectorStore.add] is missing from the
    sources.  "Appends each (embedding, metadata) pair, in order, to the
    store's entry list"; on differing lengths it "fails with a reported
    error and leaves the store's prior entries unchanged" (a
    "length mismatch" [StoreError]). *)
Definition add (embeddings : list embedding) (metadatas : list metadata)
           (s : store) : result store :=
  if Nat.eqb (List.length embeddings) (List.length metadatas)
  then Ok (s ++ combine embeddings metadatas)
  else Raise (StoreError "length mismatch").

(** Modelled from the spec: [SimpleVectorStore.reset] is missing from the
    sources.  "Discards all entries; store size becomes zero." *)
Definition reset (s : store) : store := [].

(** *** Cosine similarity *)

Fixpoint dot (a b : embedding) : R :=
  match a, b with
  | x :: a', y :: b' => (x * y + dot a' b')%R
  | _, _ => 0%R
  end.

Definition norm (a : embedding) : R := sqrt (dot a a).

(** Division as the program has it: dividing by zero raises. *)
Definition divide (x y : R) : result R :=
  if Req_dec_T y 0%R then Raise ZeroDivisionError else Ok (x / y)%R.

(** Modelled from the spec: the similarity computation of
    [SimpleVectorStore.search] is missing from the sources.
    "dot(a,b) / (norm(a) * norm(b)).  If a stored embedding has zero norm,
    its similarity is treated as zero (not a division error)."  The first
    argument is the query, the second the stored embedding.  The
    specification names no special case for the query, so none is made:
    the quotient is taken as written. *)
Definition cosine (q e : embedding) : result R :=
  if Req_dec_T (norm e) 0%R then Ok 0%R
  else divide (dot q e) (norm q * norm e).

(** *** Ranking *)

(** A stored entry during ranking: its insertion position, its similarity
    score and its metadata record. *)
Record ranked : Type := Ranked {
  position : nat;
  similarity : R;
  meta : metadata
}.

Definition to_hit (r : ranked) : hit := Hit (similarity r) (meta r).

(** Scores every entry, numbering the entries from [i] on. *)
Fixpoint score_entries (q : embedding) (i : nat) (s : store)
  : result (list ranked) :=
  match s with
  | [] => Ok []
  | (e, m) :: s' =>
      rbind (cosine q e) (fun c =>
      rbind (score_entries q (S i) s') (fun rs =>
      Ok (Ranked i c m :: rs)))
  end.

(** Stable insertion for a descending order: [x], which was inserted into
    the store before every element of [l], goes in front of the first
    element whose score is not strictly greater than its own. *)
Fixpoint insert (x : ranked) (l : list ranked) : list ranked :=
  match l with
  | [] => [x]
  | y :: l' =>
      if Rlt_dec (similarity x) (similarity y)
      then y :: insert x l'
      else x :: l
  end.

(** Modelled from the spec: "sort all entries by descending similarity
    score; break ties by original insertion order (earlier insertion
    wins)", a stable sort. *)
Fixpoint rank (l : list ranked) : list ranked :=
  match l with
  | [] => []
  | x :: l' => insert x (rank l')
  end.

(** The ranked entries a search selects, with their insertion positions. *)
Definition search_ranked (s : store) (q : embedding) (top_k : nat)
  : result (list ranked) :=
  rbind (score_entries q 0 s) (fun rs => Ok (firstn top_k (rank rs))).

(** Modelled from the spec: [SimpleVectorStore.search] is missing from the
    sources.  "Output: the top min(top_k, store_size) entries, each
    reported as its similarity score plus its metadata record.  If the
    store is empty, returns an empty result."  The store is not changed. *)
Definition search (s : store) (q : embedding) (top_k : nat)
  : result (list hit) :=
  rbind (search_ranked s q top_k) (fun rs => Ok (map to_hit rs)).








End VectorStore.

(** ** The session script *)

(** [str(n)] for a natural number, as interpolated by an f-string. *)
Definition str_of_nat (n : nat) : string :=
  NilEmpty.string_of_uint (Nat.to_uint n).

(** The double-quote character, for the HTML attributes of the page. *)
Definition dq : string := String (ascii_of_nat 34) EmptyString.

(** A line break. *)
Definition nl : string := String (ascii_of_nat 10) EmptyString.

(** *** Text

    A Python [str] is a sequence of code points.  It is modelled by its
    UTF-8 encoding, one [ascii] per byte: a character is a lead byte
    followed by its continuation bytes (the bytes 10xxxxxx).  Lengths,
    slices and [strip] work on characters, as in Python. *)

Definition is_continuation (c : ascii) : bool :=
  let n := nat_of_ascii c in
  andb (Nat.leb 128 n) (Nat.ltb n 192).

Definition starts_with_continuation (s : string) : bool :=
  match s with
  | String c _ => is_continuation c
  | EmptyString => false
  end.

(** The characters of a text, in order, each as its bytes. *)
Fixpoint chars (s : string) : list string :=
  match s with
  | EmptyString => []
  | String c s' =>
      match chars s' with
      | r :: rest =>
          if starts_with_continuation r then String c r :: rest
          else String c EmptyString :: r :: rest
      | [] => [String c EmptyString]
      end
  end.

(** A string of continuation bytes only. *)
Fixpoint continuation_only (s : string) : bool :=
  match s with
  | EmptyString => true
  | String c s' => andb (is_continuation c) (continuation_only s')
  end.

(** One character: a byte followed by continuation bytes only. *)
Definition is_char (g : string) : bool :=
  match g with
  | EmptyString => false
  | String _ t => continuation_only t
  end.

(** A list of characters as [chars] yields them: each is one character,
    and none but the first starts with a continuation byte. *)
Definition well_split (l : list string) : Prop :=
  Forall (fun g => is_char g = true) l /\
  Forall (fun g => starts_with_continuation g = false) (tl l).

(** Characters put back together. *)
Definition join (l : list string) : string :=
  fold_right String.append EmptyString l.

(** [len(s)]: the number of characters. *)
Definition len (s : string) : nat := List.length (chars s).

(** [s[:n]]: the first [n] characters. *)
Definition take (n : nat) (s : string) : string := join (firstn n (chars s)).

(** The UTF-8 encoding of a code point below 65536. *)
Definition utf8 (cp : N) : string :=
  if N.ltb cp 128 then
    String (ascii_of_N cp) EmptyString
  else if N.ltb cp 2048 then
    String (ascii_of_N (192 + cp / 64))
      (String (ascii_of_N (128 + cp mod 64)) EmptyString)
  else
    String (ascii_of_N (224 + cp / 4096))
      (String (ascii_of_N (128 + (cp / 64) mod 64))
         (String (ascii_of_N (128 + cp mod 64)) EmptyString)).

(** The code points Python counts as white space ([str.isspace]): the
    ASCII controls 9-13 and 28-31, the space, U+0085, U+00A0, U+1680,
    U+2000 to U+200A, U+2028, U+2029, U+202F, U+205F and U+3000. *)
Definition whitespace : list N :=
  [9; 10; 11; 12; 13; 28; 29; 30; 31; 32; 133; 160; 5760;
   8192; 8193; 8194; 8195; 8196; 8197; 8198; 8199; 8200; 8201; 8202;
   8232; 8233; 8239; 8287; 12288]%N.

Definition is_space (ch : string) : bool :=
  existsb (String.eqb ch) (map utf8 whitespace).

Fixpoint drop_spaces (l : list string) : list string :=
  match l with
  | [] => []
  | ch :: l' => if is_space ch then drop_spaces l' else l
  end.

(** Python's [str.strip()] with no argument: the white space at both ends
    is removed. *)
Definition strip (s : string) : string :=
  join (rev (drop_spaces (rev (drop_spaces (chars s))))).

(** Truthiness of a string and of a list: empty is false. *)
Definition truthy (s : string) : bool :=
  match s with EmptyString => false | _ => true end.

Definition nonempty {A} (l : list A) : bool :=
  match l with [] => false | _ => true end.

(** [enumerate(l, start)]. *)
Definition enumerate {A} (start : nat) (l : list A) : list (nat * A) :=
  combine (seq start (List.length l)) l.

(** An uploaded file, as far as the script looks at it: its name; the
    content is only ever handed to the extractor. *)
Record uploaded_file : Type := UploadedFile {
  name : string;
  content : string
}.

(** A document record, [{"name", "length", "chunks", "uploaded_at"}]. *)
Module Doc.
Record t : Type := mk {
  name : string;
  length : nat;
  chunks : nat;
  uploaded_at : string
}.
End Doc.

(** A context handed to the answer generator, [{"text", "source"}]. *)
Module Ctx.
Record t : Type := mk {
  text : string;
  source : string
}.
End Ctx.

(** The functions app.py imports from [utils], the clock and the float
    formatter.  Their code is external to the script; each may raise. *)
Class Collaborators : Type := {
  extract_text_from_uploaded_file : uploaded_file -> result (string * string);
  chunk_text : string -> result (list string);
  (** [get_embeddings_batch(texts, doc_name=...)]; [None] when the keyword
      is left out. *)
  get_embeddings_batch : list string -> option string -> result (list embedding);
  generate_answer : string -> list Ctx.t -> result string;
  (** [datetime.now().strftime("%Y-%m-%d %H:%M")], read at a logical time:
      the number of collaborator calls made so far in the run. *)
  strftime_now : nat -> string;
  (** [f"{x:.3f}"]. *)
  format_3f : R -> string
}.

(** What a run puts on the page (the static header, style sheet and sidebar
    text are left out). *)
Inductive message : Type :=
| Info (s : string)
| Error (s : string)
| Warning (s : string)
| Success (s : string)
| SidebarSuccess (s : string)
| Subheader (s : string)
| Markdown (s : string)
| Dataframe (docs : list Doc.t)
| ShowLoader (s : string)
| EmptyLoader.

(** The calls a run makes to the collaborators and to the store. *)
Inductive call : Type :=
| CallExtract (uf : uploaded_file)
| CallChunk (txt : string)
| CallEmbed (texts : list string) (doc_name : option string)
| CallAdd (embeddings : list embedding) (metadatas : list metadata)
| CallSearch (q : embedding) (top_k : Z)
| CallReset
| CallGenerate (question : string) (contexts : list Ctx.t)
| CallNow.

(** [st.session_state]: the store and the document list. *)
Record session_state : Type := SessionState {
  vs : VectorStore.store;
  documents : list Doc.t
}.

(** The state a run of the script threads along. *)
Record world : Type := World {
  session : session_state;
  page : list message;
  calls : list call
}.

(** The widget values of one run. *)
Record widgets : Type := Widgets {
  clear_all_data : bool;
  uploaded_files : list uploaded_file;
  process_files : bool;
  question : string;
  (** where the user put the slider, if it was moved at all *)
  top_k_position : option Z;
  get_answer : bool
}.

(** [st.slider(label, min_value, max_value, value)]: the widget returns its
    default until it is moved, and a position within its bounds after. *)
Definition slider (min_value max_value value : Z) (pos : option Z) : Z :=
  match pos with
  | None => value
  | Some p => Z.max min_value (Z.min max_value p)
  end.

(** *** The monad: state, with exceptions that keep the state *)

Definition M (A : Type) : Type := world -> world * result A.

Definition ret {A} (a : A) : M A := fun w => (w, Ok a).

Definition bind {A B} (m : M A) (k : A -> M B) : M B :=
  fun w =>
    match m w with
    | (w', Ok a) => k a w'
    | (w', Raise e) => (w', Raise e)
    end.

Declare Scope app_scope.
Delimit Scope app_scope with app.
Notation "x <- m ;; k" := (bind m (fun x => k))
  (at level 100, m at next level, right associativity) : app_scope.
Notation "m ;; k" := (bind m (fun _ => k))
  (at level 100, right associativity) : app_scope.
Open Scope app_scope.

(** [try: m / except Exception as e: ...], with the outcome as a value. *)
Definition try_ {A} (m : M A) : M (result A) :=
  fun w => let (w', r) := m w in (w', Ok r).

(** Lifts a collaborator's outcome. *)
Definition lift {A} (r : result A) : M A := fun w => (w, r).

Definition emit (m : message) : M unit :=
  fun w => (World (session w) (page w ++ [m]) (calls w), Ok tt).

Definition record_call (c : call) : M unit :=
  fun w => (World (session w) (page w) (calls w ++ [c]), Ok tt).

Definition get_session : M session_state := fun w => (w, Ok (session w)).

Definition put_session (s : session_state) : M unit :=
  fun w => (World s (page w) (calls w), Ok tt).

Definition logical_time : M nat := fun w => (w, Ok (List.length (calls w))).

Module App.
Section Script.

Context {C : Collaborators}.

(** *** Calls to the collaborators and to the store, each recorded *)

Definition extract (uf : uploaded_file) : M (string * string) :=
  record_call (CallExtract uf) ;;
  lift (extract_text_from_uploaded_file uf).

Definition chunk (txt : string) : M (list string) :=
  record_call (CallChunk txt) ;;
  lift (chunk_text txt).

Definition embed (texts : list string) (doc_name : option string)
  : M (list embedding) :=
  record_call (CallEmbed texts doc_name) ;;
  lift (get_embeddings_batch texts doc_name).

Definition generate (q : string) (contexts : list Ctx.t) : M string :=
  record_call (CallGenerate q contexts) ;;
  lift (generate_answer q contexts).

Definition now : M string :=
  t <- logical_time ;;
  record_call CallNow ;;
  ret (strftime_now t).

(** [st.session_state.vs.add(embeddings, metadatas)] *)
Definition vs_add (embeddings : list embedding) (metadatas : list metadata)
  : M unit :=
  record_call (CallAdd embeddings metadatas) ;;
  s <- get_session ;;
  vs' <- lift (VectorStore.add embeddings metadatas (vs s)) ;;
  put_session (SessionState vs' (documents s)).

(** [st.session_state.vs.search(q_emb, top_k=top_k)] *)
Definition vs_search (q_emb : embedding) (top_k : Z) : M (list hit) :=
  record_call (CallSearch q_emb top_k) ;;
  s <- get_session ;;
  lift (VectorStore.search (vs s) q_emb (Z.to_nat top_k)).

(** [st.session_state.vs.reset()] *)
Definition vs_reset : M unit :=
  record_call CallReset ;;
  s <- get_session ;;
  put_session (SessionState (VectorStore.reset (vs s)) (documents s)).

(** [st.session_state.documents = docs] *)
Definition set_documents (docs : list Doc.t) : M unit :=
  s <- get_session ;;
  put_session (SessionState (vs s) docs).

(** [st.session_state.documents.append(d)] *)
Definition append_document (d : Doc.t) : M unit :=
  s <- get_session ;;
  put_session (SessionState (vs s) (documents s ++ [d])).

(** [l[0]] *)
Definition index0 {A} (l : list A) : M A :=
  match l with
  | [] => lift (Raise IndexError)
  | a :: _ => ret a
  end.

(** *** Sidebar: the Clear All Data button (lines 77-80) *)

Definition clear_handler : M unit :=
  vs_reset ;;
  set_documents [] ;;
  emit (SidebarSuccess "Cleared all in-memory data").

(** *** File upload and processing (lines 119-161) *)

(** The metadata list of line 144. *)
Definition metadatas_of (uf : uploaded_file) (chunks : list string)
  : list metadata :=
  map (fun '(idx, chunk) => Metadata (name uf) idx chunk)
      (enumerate 0 chunks).

(** The body of the loop for one file; [processed] is the counter, and the
    value returned is the counter after the body.  Every [continue] ends
    the body with the counter as it was. *)
Definition process_file (uf : uploaded_file) (processed : nat) : M nat :=
  emit (Info ("Processing " ++ name uf)) ;;
  r <- try_ (extract uf) ;;
  match r with
  | Raise e =>
      emit (Error ("Error extracting text from " ++ name uf ++ ": "
                     ++ exn_str e)) ;;
      ret processed
  | Ok (txt, ftype) =>
      if negb (truthy txt) then
        emit (Warning ("No text found in " ++ name uf)) ;;
        ret processed
      else
        chunks <- chunk txt ;;
        r <- try_ (embed chunks (Some (name uf))) ;;
        match r with
        | Raise e =>
            emit (Error ("Error generating embeddings for " ++ name uf
                           ++ ": " ++ exn_str e)) ;;
            ret processed
        | Ok embeddings =>
            let metadatas := metadatas_of uf chunks in
            r <- try_ (vs_add embeddings metadatas) ;;
            match r with
            | Raise e =>
                emit (Error ("Error adding vectors for " ++ name uf
                               ++ ": " ++ exn_str e)) ;;
                ret processed
            | Ok _ =>
                uploaded_at <- now ;;
                append_document
                  (Doc.mk (name uf) (len txt)
                          (List.length chunks) uploaded_at) ;;
                ret (processed + 1)
            end
        end
  end.

(** [for uf in uploaded_files: ...] *)
Fixpoint for_files (files : list uploaded_file) (processed : nat) : M nat :=
  match files with
  | [] => ret processed
  | uf :: rest =>
      processed' <- process_file uf processed ;;
      for_files rest processed'
  end.

Definition upload_handler (files : list uploaded_file) : M unit :=
  let total_files := List.length files in
  emit (ShowLoader "Processing uploaded files...") ;;
  processed <- for_files files 0 ;;
  emit EmptyLoader ;;
  emit (Success ("Processed " ++ str_of_nat processed ++ "/"
                   ++ str_of_nat total_files ++ " files")).

(** *** Questions and answers (lines 165-228) *)

Definition spaces (n : nat) : string :=
  String.concat "" (repeat " " n).

Definition answer_box (answer : string) : string :=
  nl ++ spaces 16 ++ "<div class=" ++ dq ++ "answer-box" ++ dq ++ ">"
     ++ nl ++ spaces 20 ++ "<h3>🤖 Answer</h3>"
     ++ nl ++ spaces 20 ++ "<p>" ++ answer ++ "</p>"
     ++ nl ++ spaces 16 ++ "</div>"
     ++ nl ++ spaces 16.

Definition source_box (i : nat) (h : hit) : string :=
  let md := hit_metadata h in
  nl ++ spaces 20 ++ "<div class=" ++ dq ++ "source-box" ++ dq ++ ">"
     ++ nl ++ spaces 24 ++ "<strong>Source " ++ str_of_nat i
     ++ ":</strong> " ++ document md ++ " — score "
     ++ format_3f (score h) ++ "<br>"
     ++ nl ++ spaces 24 ++ take 400 (text md)
     ++ (if Nat.ltb 400 (len (text md)) then "…" else "")
     ++ nl ++ spaces 20 ++ "</div>"
     ++ nl ++ spaces 20.

Definition feature_card : string :=
  nl ++ spaces 4 ++ "<div class=" ++ dq ++ "feature-card" ++ dq ++ ">"
     ++ nl ++ spaces 8 ++ "<h3>🎯 How StudyMate Works</h3>"
     ++ nl ++ spaces 8 ++ "<ol>"
     ++ nl ++ spaces 12
     ++ "<li><strong>Upload Files:</strong> PDFs, DOCX, PPTX, TXT</li>"
     ++ nl ++ spaces 12
     ++ "<li><strong>Ask Questions:</strong> Type natural language queries</li>"
     ++ nl ++ spaces 12
     ++ "<li><strong>Get Answers:</strong> Based on extracted content</li>"
     ++ nl ++ spaces 8 ++ "</ol>"
     ++ nl ++ spaces 4 ++ "</div>"
     ++ nl ++ spaces 4.

Fixpoint show_sources (l : list (nat * hit)) : M unit :=
  match l with
  | [] => ret tt
  | (i, h) :: l' => emit (Markdown (source_box i h)) ;; show_sources l'
  end.

(** The value the script passes as [top_k] (line 172). *)
Definition top_k_of (wd : widgets) : Z := slider 1 10 4 (top_k_position wd).

(** The contexts of line 190, one per hit. *)
Definition contexts_of (hits : list hit) : list Ctx.t :=
  map (fun h => Ctx.mk (text (hit_metadata h)) (document (hit_metadata h)))
      hits.

(** The Get Answer button (lines 174-215). *)
Definition answer_handler (wd : widgets) : M unit :=
  let top_k := top_k_of wd in
  if negb (truthy (strip (question wd))) then
    emit (Warning "Please enter a question first.")
  else
    emit (ShowLoader "Searching relevant passages...") ;;
    r <- try_ (embs <- embed [question wd] None ;;
               q_emb <- index0 embs ;;
               vs_search q_emb top_k) ;;
    hits <- match r with
            | Raise e => emit (Error ("Search error: " ++ exn_str e)) ;;
                         ret []
            | Ok hits => ret hits
            end ;;
    emit EmptyLoader ;;
    if negb (nonempty hits) then
      emit (Warning
              "No relevant passages found. Please upload documents first.")
    else
      let contexts := contexts_of hits in
      emit (ShowLoader "Generating answer...") ;;
      r <- try_ (generate (question wd) contexts) ;;
      answer <- match r with
                | Raise e =>
                    emit (Error ("Answer generation error: "
                                   ++ exn_str e)) ;;
                    ret "Error: Unable to generate answer."
                | Ok answer => ret answer
                end ;;
      emit EmptyLoader ;;
      emit (Markdown (answer_box answer)) ;;
      emit (Subheader "📖 Sources") ;;
      show_sources (enumerate 1 hits).

Definition documents_view (wd : widgets) : M unit :=
  s <- get_session ;;
  if nonempty (documents s) then
    emit (Subheader "📄 Processed Documents") ;;
    emit (Dataframe (documents s)) ;;
    emit (Subheader "💬 Ask a Question") ;;
    if get_answer wd then answer_handler wd else ret tt
  else
    emit (Markdown feature_card) ;;
    emit (Info "👆 Start by uploading your documents above!").

(** *** One run of the script *)

Definition script (wd : widgets) : M unit :=
  (if clear_all_data wd then clear_handler else ret tt) ;;
  (if andb (nonempty (uploaded_files wd)) (process_files wd)
   then upload_handler (uploaded_files wd) else ret tt) ;;
  documents_view wd.

(** A run starts on an empty page with the session as the previous run
    left it; the session outlives the run also when the run ends in an
    uncaught exception. *)
Definition run (wd : widgets) (s : session_state) : world * result unit :=
  script wd (World s [] []).

(** Lines 60-63: the session of a fresh browser tab. *)
Definition initial_session : session_state :=
  SessionState VectorStore.empty [].

(** *** Vocabulary for the statements about the script *)

(** [w] with messages added to the page and calls to the trace; the
    session is the same. *)
Definition logged (w : world) (msgs : list message) (cs : list call)
  : world :=
  World (session w) (page w ++ msgs) (calls w ++ cs).

(** The sessions the interface can reach: the fresh one, and the one any
    run leaves behind, whether the run ends normally or not. *)
Inductive reachable : session_state -> Prop :=
| reachable_initial : reachable initial_session
| reachable_run (wd : widgets) (s : session_state) :
    reachable s -> reachable (session (fst (run wd s))).

(** The (document, chunk index) pairs a document list accounts for: for
    each record, in order, the indices below its chunk count. *)
Definition chunks_accounted (docs : list Doc.t) : list (string * nat) :=
  flat_map (fun d => map (fun i => (Doc.name d, i)) (seq 0 (Doc.chunks d)))
           docs.

(** Store and document list agree: the store holds, in order, exactly the
    chunks the document records account for. *)
Definition consistent (s : session_state) : Prop :=
  map (fun em => (document (snd em), chunk_index (snd em))) (vs s)
  = chunks_accounted (documents s).

(** The three guarded steps of the loop body. *)
Inductive stage : Type := Extraction | Embedding | Insertion.

(** File [uf] fails at [stage] with exception [e], the steps before it
    having succeeded; [st] is the store at that moment and [cs] the calls
    the body makes. *)
Definition fails_at (uf : uploaded_file) (st : VectorStore.store)
           (g : stage) (e : exn) (cs : list call) : Prop :=
  match g with
  | Extraction =>
      extract_text_from_uploaded_file uf = Raise e /\
      cs = [CallExtract uf]
  | Embedding =>
      exists txt ftype chunks,
        extract_text_from_uploaded_file uf = Ok (txt, ftype) /\
        truthy txt = true /\
        chunk_text txt = Ok chunks /\
        get_embeddings_batch chunks (Some (name uf)) = Raise e /\
        cs = [CallExtract uf; CallChunk txt;
              CallEmbed chunks (Some (name uf))]
  | Insertion =>
      exists txt ftype chunks embeddings,
        extract_text_from_uploaded_file uf = Ok (txt, ftype) /\
        truthy txt = true /\
        chunk_text txt = Ok chunks /\
        get_embeddings_batch chunks (Some (name uf)) = Ok embeddings /\
        VectorStore.add embeddings (metadatas_of uf chunks) st = Raise e /\
        cs = [CallExtract uf; CallChunk txt;
              CallEmbed chunks (Some (name uf));
              CallAdd embeddings (metadatas_of uf chunks)]
  end.

(** The message of the [except] branch of each stage. *)
Definition error_message (g : stage) (uf : uploaded_file) (e : exn)
  : string :=
  match g with
  | Extraction =>
      "Error extracting text from " ++ name uf ++ ": " ++ exn_str e
  | Embedding =>
      "Error generating embeddings for " ++ name uf ++ ": " ++ exn_str e
  | Insertion =>
      "Error adding vectors for " ++ name uf ++ ": " ++ exn_str e
  end.

(** A computation only ever moves the world along the relation [I]. *)
Definition respects (I : world -> world -> Prop) {A} (m : M A) : Prop :=
  forall w, I w (fst (m w)).

(** The relations along which whole handlers are followed: reflexive,
    transitive, and blind to what is on the page. *)
Class Frame (I : world -> world -> Prop) : Prop := {
  frame_refl : forall w, I w w;
  frame_trans : forall a b c, I a b -> I b c -> I a c;
  frame_page : forall w p, I w (World (session w) p (calls w))
}.

(** Consistency, if it held before, holds after. *)
Definition keeps_consistent (w w' : world) : Prop :=
  consistent (session w) -> consistent (session w').

(** The session is left as it was. *)
Definition same_session (w w' : world) : Prop := session w' = session w.

(** The trace grows by calls that all satisfy [ok]. *)
Definition calls_grow (ok : call -> Prop) (w w' : world) : Prop :=
  exists cs, calls w' = calls w ++ cs /\ Forall ok cs.

(** A call is a search only with [top_k] equal to [k]. *)
Definition searches_with (k : Z) (c : call) : Prop :=
  match c with
  | CallSearch _ top_k => top_k = k
  | _ => True
  end.

(** *** Vocabulary for further statements *)

(** The source boxes of lines 208-215, one per hit, numbered from 1. *)
Definition sources_of (hits : list hit) : list message :=
  map (fun '(i, h) => Markdown (source_box i h)) (enumerate 1 hits).

(** The text shown in a source box (line 213): the first 400 characters,
    and an ellipsis when there are more. *)
Definition preview (t : string) : string :=
  take 400 t ++ (if Nat.ltb 400 (len t) then "…" else "").

(** The [try] block of lines 179-181 fails with [e] on store [st], having
    made the calls [cs]: the embedder raises, or answers no vector at all
    (so that [[0]] raises), or the search raises. *)
Definition query_fails (wd : widgets) (st : VectorStore.store) (e : exn)
           (cs : list call) : Prop :=
  (get_embeddings_batch [question wd] None = Raise e /\
   cs = [CallEmbed [question wd] None]) \/
  (get_embeddings_batch [question wd] None = Ok [] /\
   e = IndexError /\
   cs = [CallEmbed [question wd] None]) \/
  (exists q_emb embs,
      get_embeddings_batch [question wd] None = Ok (q_emb :: embs) /\
      VectorStore.search st q_emb (Z.to_nat (top_k_of wd)) = Raise e /\
      cs = [CallEmbed [question wd] None; CallSearch q_emb (top_k_of wd)]).

(** The calls of the upload loop: for a file its extraction, chunking,
    embedding under the file's name, insertion and time stamp. *)
Definition upload_call (c : call) : Prop :=
  match c with
  | CallExtract _ | CallChunk _ | CallAdd _ _ | CallNow => True
  | CallEmbed _ (Some _) => True
  | CallEmbed _ None | CallSearch _ _ | CallGenerate _ _ | CallReset => False
  end.

(** The calls made before the documents view: the sidebar's reset and the
    upload loop's calls. *)
Definition maintenance_call (c : call) : Prop :=
  c = CallReset \/ upload_call c.

(** The calls of the Get Answer button for the widgets [wd]: the embedding
    of the question alone, a search with the slider's value, and a
    generation on the question as typed with at least one context. *)
Definition question_call (wd : widgets) (c : call) : Prop :=
  match c with
  | CallEmbed texts None => texts = [question wd]
  | CallSearch _ top_k => top_k = top_k_of wd
  | CallGenerate q contexts => q = question wd /\ contexts <> []
  | _ => False
  end.

(** The messages that announce a file, and those that report a file as
    not processed (an error or a warning). *)
Definition is_info (m : message) : bool :=
  match m with Info _ => true | _ => false end.

Definition is_problem (m : message) : bool :=
  match m with Error _ | Warning _ => true | _ => false end.

(** The chunk counts of a document list, added up. *)
Definition total_chunks (docs : list Doc.t) : nat :=
  list_sum (map Doc.chunks docs).

End Script.
End App.

(** ** Toy collaborators, to run the script on concrete inputs *)

Module Sample.

(** Splits a text at its blanks. *)
Fixpoint words_from (acc : string) (s : string) : list string :=
  match s with
  | EmptyString => [acc]
  | String c s' =>
      if Ascii.eqb c " " then acc :: words_from "" s'
      else words_from (acc ++ String c EmptyString) s'
  end.

Definition extract (uf : uploaded_file) : result (string * string) :=
  if String.eqb (name uf) "broken.pdf" then Raise (Failure "not a PDF")
  else Ok (content uf, "txt").

Definition chunk (txt : string) : result (list string) :=
  Ok (words_from "" txt).

(** One two-dimensional embedding per text; the service is down for
    [down.txt] and answers one vector short for [short.txt]. *)
Definition embed (texts : list string) (doc_name : option string)
  : result (list embedding) :=
  match doc_name with
  | Some "down.txt" => Raise (Failure "service unavailable")
  | Some "short.txt" => Ok (tl (map (fun _ => [1; 0]%R) texts))
  | _ => Ok (map (fun _ => [1; 0]%R) texts)
  end.

Definition generate (q : string) (contexts : list Ctx.t) : result string :=
  if String.eqb q "why?" then Raise (Failure "model overloaded")
  else Ok "because".

#[export] Instance collaborators : Collaborators := {
  extract_text_from_uploaded_file := extract;
  chunk_text := chunk;
  get_embeddings_batch := embed;
  generate_answer := generate;
  strftime_now := fun _ => "2025-01-01 12:00";
  format_3f := fun _ => "1.000"
}.

Definition m1 : metadata := Metadata "a.txt" 0 "alpha".
Definition m2 : metadata := Metadata "a.txt" 1 "beta".


(** A session holding one chunk of one document. *)
Definition one_chunk_session : session_state :=
  SessionState [([1; 0]%R, m1)]
               [Doc.mk "a.txt" 5 1 "2025-01-01 12:00"].

(** A question the toy generator fails on, slider untouched. *)
Definition ask_why : widgets := Widgets false [] false "why?" None true.

(** The world at the start of the first run. *)
Definition fresh : world := World App.initial_session [] [].

(** The world of a run that starts on [one_chunk_session]. *)
Definition one_chunk_world : world := World one_chunk_session [] [].

(** A session with a document record and nothing in the store. *)
Definition storeless_session : session_state :=
  SessionState [] [Doc.mk "a.txt" 5 1 "2025-01-01 12:00"].

Definition notes : uploaded_file := UploadedFile "notes.txt" "a b c".
Definition blank : uploaded_file := UploadedFile "blank.txt" "".
Definition broken : uploaded_file := UploadedFile "broken.pdf" "%PDF".
Definition down : uploaded_file := UploadedFile "down.txt" "x y".
Definition short : uploaded_file := UploadedFile "short.txt" "x y".

End Sample.

(** ** Toy collaborators that fail where the others do not *)

Module Faulty.

(** The chunker cannot take the text [boom]; the text [none] has no
    chunks. *)
Definition chunk (txt : string) : result (list string) :=
  if String.eqb txt "boom" then Raise (Failure "chunker crashed")
  else if String.eqb txt "none" then Ok []
  else Ok [txt].

(** The embedding service is down for questions; for files it answers one
    vector per text. *)
Definition embed (texts : list string) (doc_name : option string)
  : result (list embedding) :=
  match doc_name with
  | None => Raise (Failure "service unavailable")
  | Some _ => Ok (map (fun _ => [1; 0]%R) texts)
  end.

#[export] Instance collaborators : Collaborators := {
  extract_text_from_uploaded_file := fun uf => Ok (content uf, "txt");
  chunk_text := chunk;
  get_embeddings_batch := embed;
  generate_answer := fun _ _ => Ok "because";
  strftime_now := fun _ => "2025-01-01 12:00";
  format_3f := fun _ => "1.000"
}.

Definition boom : uploaded_file := UploadedFile "boom.txt" "boom".
Definition none : uploaded_file := UploadedFile "none.txt" "none".
Definition fine : uploaded_file := UploadedFile "fine.txt" "fine".

(** Two files to process, the first of which the chunker cannot take. *)
Definition upload_boom : widgets :=
  Widgets false [boom; fine] true "" None false.

(** A question, with documents in the session. *)
Definition ask : widgets := Widgets false [] false "what?" None true.

End Faulty.

(** ** Further widget settings and texts for concrete runs *)

Module Scenarios.

(** Get Answer clicked on a question of white space only: a space, a
    tab, U+001F, U+00A0 (no-break space), U+2003 (em space) and U+3000. *)
Definition ask_blank : widgets :=
  Widgets false [] false
          (" " ++ utf8 9 ++ utf8 31 ++ utf8 160 ++ utf8 8195 ++ utf8 12288)
          None true.

(** Clear All Data and Get Answer in the same run. *)
Definition clear_and_ask : widgets :=
  Widgets true [] false "why?" None true.

(** A batch of a good file and one without text. *)
Definition upload_two : widgets :=
  Widgets false [Sample.notes; Sample.blank] true "" None false.

(** A text of 300 characters and 600 bytes. *)
Definition accents : string := join (repeat "é" 300).

(** A text of 401 characters. *)
Definition long_text : string := join (repeat "é" 401).

End Scenarios.

(** * Facts about the vector store *)

Module VectorStoreFacts.
Import VectorStore.

(** ** Similarity *)


Lemma cosine_defined (q e : embedding) :
  norm q <> 0%R -> norm e <> 0%R ->
  cosine q e = Ok (dot q e / (norm q * norm e))%R.
Proof.
  intros Hq He. unfold cosine, divide.
  destruct (Req_dec_T (norm e) 0) as [E | _]; [contradiction |].
  destruct (Req_dec_T (norm q * norm e) 0) as [E | _]; [| reflexivity].
  apply Rmult_integral in E. tauto.
Qed.



(** ** Scoring the entries *)






(** ** Ranking *)














(** ** Searching *)





Lemma search_empty (q : embedding) (top_k : nat) :
  search empty q top_k = Ok [].
Proof.
  unfold search, search_ranked, empty. simpl. rewrite firstn_nil. reflexivity.
Qed.

(** ** The example scenario *)

Lemma norm_10 : norm [1; 0]%R = 1%R.
Proof.
  unfold norm. simpl. replace (1 * 1 + (0 * 0 + 0))%R with 1%R by lra.
  apply sqrt_1.
Qed.


Lemma cosine_10_10 : cosine [1; 0]%R [1; 0]%R = Ok 1%R.
Proof.
  rewrite cosine_defined; rewrite ?norm_10; try lra.
  f_equal. simpl. field.
Qed.



Lemma search_single (m : metadata) (k : nat) :
  search [([1; 0]%R, m)] [1; 0]%R (S k) = Ok [Hit 1 m].
Proof.
  unfold search, search_ranked. cbn [score_entries].
  rewrite cosine_10_10. cbn [rbind rank insert firstn map].
  rewrite firstn_nil. reflexivity.
Qed.




(** ** The claims about [search] *)









End VectorStoreFacts.

(** * Facts about the session script *)

Module AppFacts.
Import App.

Section ScriptFacts.

Context {C : Collaborators}.

(** ** The loop body, outcome by outcome *)

(** The loop body in direct style: what one file does to the world,
    decided by what the collaborators and the store answer. *)
Lemma process_file_run (uf : uploaded_file) (n : nat) (w : world) :
  process_file uf n w =
  match extract_text_from_uploaded_file uf with
  | Raise e =>
      (logged w [Info ("Processing " ++ name uf);
                 Error (error_message Extraction uf e)]
                [CallExtract uf], Ok n)
  | Ok (txt, ftype) =>
      if truthy txt then
        match chunk_text txt with
        | Raise e =>
            (logged w [Info ("Processing " ++ name uf)]
                      [CallExtract uf; CallChunk txt], Raise e)
        | Ok chunks =>
            match get_embeddings_batch chunks (Some (name uf)) with
            | Raise e =>
                (logged w [Info ("Processing " ++ name uf);
                           Error (error_message Embedding uf e)]
                          [CallExtract uf; CallChunk txt;
                           CallEmbed chunks (Some (name uf))], Ok n)
            | Ok embeddings =>
                match VectorStore.add embeddings (metadatas_of uf chunks)
                                      (vs (session w)) with
                | Raise e =>
                    (logged w [Info ("Processing " ++ name uf);
                               Error (error_message Insertion uf e)]
                              [CallExtract uf; CallChunk txt;
                               CallEmbed chunks (Some (name uf));
                               CallAdd embeddings (metadatas_of uf chunks)],
                     Ok n)
                | Ok vs' =>
                    (World
                       (SessionState vs'
                          (documents (session w)
                             ++ [Doc.mk (name uf) (len txt)
                                   (List.length chunks)
                                   (strftime_now
                                      (List.length (calls w) + 4))]))
                       (page w ++ [Info ("Processing " ++ name uf)])
                       (calls w
                          ++ [CallExtract uf; CallChunk txt;
                              CallEmbed chunks (Some (name uf));
                              CallAdd embeddings (metadatas_of uf chunks);
                              CallNow]),
                     Ok (n + 1))
                end
            end
        end
      else
        (logged w [Info ("Processing " ++ name uf);
                   Warning ("No text found in " ++ name uf)]
                  [CallExtract uf], Ok n)
  end.
Proof.
  unfold process_file, logged, error_message.
  unfold extract, chunk, embed, vs_add, now, append_document.
  unfold bind, try_, emit, record_call, lift, get_session, put_session,
    logical_time, ret.
  simpl.
  destruct (extract_text_from_uploaded_file uf) as [[txt ftype] | e]; simpl.
  2: { rewrite <- app_assoc. reflexivity. }
  destruct (truthy txt); simpl.
  2: { rewrite <- app_assoc. reflexivity. }
  destruct (chunk_text txt) as [chunks | e]; simpl.
  2: { rewrite <- app_assoc. reflexivity. }
  destruct (get_embeddings_batch chunks (Some (name uf))) as [embs | e]; simpl.
  2: { rewrite <- !app_assoc. reflexivity. }
  destruct (VectorStore.add embs (metadatas_of uf chunks) (vs (session w)))
    as [vs' | e]; simpl.
  2: { rewrite <- !app_assoc. reflexivity. }
  rewrite <- !app_assoc. simpl.
  rewrite !length_app. simpl.
  replace (List.length (calls w) + 1 + 1 + 1 + 1)
    with (List.length (calls w) + 4) by lia.
  reflexivity.
Qed.

Lemma for_files_cons (uf : uploaded_file) (rest : list uploaded_file)
      (n : nat) (w : world) :
  for_files (uf :: rest) n w =
  match process_file uf n w with
  | (w', Ok n') => for_files rest n' w'
  | (w', Raise e) => (w', Raise e)
  end.
Proof. reflexivity. Qed.

Lemma metadatas_of_length (uf : uploaded_file) (chunks : list string) :
  List.length (metadatas_of uf chunks) = List.length chunks.
Proof.
  unfold metadatas_of, enumerate.
  rewrite length_map, length_combine, length_seq. apply Nat.min_id.
Qed.

Lemma enumerate_nth (uf : uploaded_file) (chunks : list string) :
  forall k i c,
    nth_error chunks i = Some c ->
    nth_error (map (fun '(idx, chunk) => Metadata (name uf) idx chunk)
                   (enumerate k chunks)) i
    = Some (Metadata (name uf) (k + i) c).
Proof.
  unfold enumerate.
  induction chunks as [| c0 chunks IH]; intros k i c H.
  - destruct i; discriminate.
  - destruct i as [| i]; simpl in *.
    + injection H as <-. rewrite Nat.add_0_r. reflexivity.
    + rewrite (IH (S k) i c H).
      replace (S k + i) with (k + S i) by lia. reflexivity.
Qed.

Lemma metadatas_of_nth (uf : uploaded_file) (chunks : list string)
      (i : nat) (c : string) :
  nth_error chunks i = Some c ->
  nth_error (metadatas_of uf chunks) i = Some (Metadata (name uf) i c).
Proof.
  intros H. unfold metadatas_of. rewrite (enumerate_nth uf chunks 0 i H).
  reflexivity.
Qed.

Lemma nth_error_combine {A B} (l1 : list A) (l2 : list B) :
  forall i a b,
    nth_error l1 i = Some a -> nth_error l2 i = Some b ->
    nth_error (combine l1 l2) i = Some (a, b).
Proof.
  revert l2. induction l1 as [| a0 l1 IH]; intros l2 i a b Ha Hb.
  - destruct i; discriminate.
  - destruct l2 as [| b0 l2]; [destruct i; discriminate |].
    destruct i as [| i]; simpl in *.
    + injection Ha as ->. injection Hb as ->. reflexivity.
    + exact (IH l2 i a b Ha Hb).
Qed.

Lemma add_ok (embeddings : list embedding) (metadatas : list metadata)
      (s : VectorStore.store) :
  List.length embeddings = List.length metadatas ->
  VectorStore.add embeddings metadatas s
  = Ok (s ++ combine embeddings metadatas).
Proof.
  intros H. unfold VectorStore.add.
  rewrite (proj2 (Nat.eqb_eq _ _) H). reflexivity.
Qed.

Lemma add_mismatch (embeddings : list embedding) (metadatas : list metadata)
      (s : VectorStore.store) :
  List.length embeddings <> List.length metadatas ->
  VectorStore.add embeddings metadatas s
  = Raise (StoreError "length mismatch").
Proof.
  intros H. unfold VectorStore.add.
  rewrite (proj2 (Nat.eqb_neq _ _) H). reflexivity.
Qed.

Lemma add_inv (embeddings : list embedding) (metadatas : list metadata)
      (s s' : VectorStore.store) :
  VectorStore.add embeddings metadatas s = Ok s' ->
  List.length embeddings = List.length metadatas /\
  s' = s ++ combine embeddings metadatas.
Proof.
  unfold VectorStore.add.
  destruct (Nat.eqb_spec (List.length embeddings) (List.length metadatas));
    [| discriminate].
  intros H. injection H as <-. split; [assumption | reflexivity].
Qed.

(** ** The claims about the upload loop *)

(** C4.  An [add] whose embeddings and metadata records differ in number
    raises the "length mismatch" store error; the session's store and
    document list are as before the call; and in the upload loop, when the
    embedder answers a number of vectors other than the number of chunks,
    the file ends with the error message for that file on the page and
    the counter unchanged. *)
Theorem add_length_mismatch_reported
        (embeddings : list embedding) (metadatas : list metadata)
        (w : world) :
  List.length embeddings <> List.length metadatas ->
  VectorStore.add embeddings metadatas (vs (session w))
  = Raise (StoreError "length mismatch") /\
  vs_add embeddings metadatas w
  = (World (session w) (page w)
           (calls w ++ [CallAdd embeddings metadatas]),
     Raise (StoreError "length mismatch")) /\
  forall uf n txt ftype chunks,
    extract_text_from_uploaded_file uf = Ok (txt, ftype) ->
    truthy txt = true ->
    chunk_text txt = Ok chunks ->
    get_embeddings_batch chunks (Some (name uf)) = Ok embeddings ->
    metadatas = metadatas_of uf chunks ->
    process_file uf n w
    = (logged w [Info ("Processing " ++ name uf);
                 Error ("Error adding vectors for " ++ name uf
                          ++ ": length mismatch")]
                [CallExtract uf; CallChunk txt;
                 CallEmbed chunks (Some (name uf));
                 CallAdd embeddings metadatas], Ok n).
Proof.
  intros Hlen. pose proof (@add_mismatch embeddings metadatas (vs (session w)) Hlen)
    as Hadd.
  split; [exact Hadd |]. split.
  - unfold vs_add.
    unfold bind, record_call, lift, get_session, put_session. simpl.
    rewrite Hadd. reflexivity.
  - intros uf n txt ftype chunks He Ht Hc Hg ->.
    rewrite process_file_run, He, Ht, Hc, Hg, Hadd. reflexivity.
Qed.

(** C5.  When a file fails at extraction, at embedding or at insertion
    into the store, the loop body ends normally: the failure is on the
    page as an error message naming the file and the exception, session
    and counter are as they were, and the loop goes on with the files
    that follow, whatever they are. *)
Theorem failed_file_does_not_stop_batch
        (uf : uploaded_file) (rest : list uploaded_file) (n : nat)
        (w : world) (g : stage) (e : exn) (cs : list call) :
  fails_at uf (vs (session w)) g e cs ->
  process_file uf n w
  = (logged w [Info ("Processing " ++ name uf);
               Error (error_message g uf e)] cs, Ok n) /\
  for_files (uf :: rest) n w
  = for_files rest n
      (logged w [Info ("Processing " ++ name uf);
                 Error (error_message g uf e)] cs).
Proof.
  intros Hf.
  assert (Hp : process_file uf n w
               = (logged w [Info ("Processing " ++ name uf);
                            Error (error_message g uf e)] cs, Ok n)).
  { rewrite process_file_run. destruct g; simpl in Hf.
    - destruct Hf as [He ->]. rewrite He. reflexivity.
    - destruct Hf as (txt & ftype & chunks & He & Ht & Hc & Hg & ->).
      rewrite He, Ht, Hc, Hg. reflexivity.
    - destruct Hf as (txt & ftype & chunks & embs
                      & He & Ht & Hc & Hg & Ha & ->).
      rewrite He, Ht, Hc, Hg, Ha. reflexivity. }
  split; [exact Hp |]. rewrite for_files_cons, Hp. reflexivity.
Qed.

(** C6.  A file is counted as processed exactly when extraction, chunking,
    embedding and insertion all succeeded; the store then grew by one
    entry per chunk, and the entry of the i-th chunk (counting from zero)
    carries the i-th embedding and the metadata record with the file's
    name, the index i and the chunk's text. *)
Theorem stored_metadata_describes_chunk
        (uf : uploaded_file) (n : nat) (w w' : world) :
  process_file uf n w = (w', Ok (n + 1)) <->
  exists txt ftype chunks embeddings,
    extract_text_from_uploaded_file uf = Ok (txt, ftype) /\
    truthy txt = true /\
    chunk_text txt = Ok chunks /\
    get_embeddings_batch chunks (Some (name uf)) = Ok embeddings /\
    List.length embeddings = List.length chunks /\
    w' = World
           (SessionState
              (vs (session w) ++ combine embeddings (metadatas_of uf chunks))
              (documents (session w)
                 ++ [Doc.mk (name uf) (len txt)
                       (List.length chunks)
                       (strftime_now (List.length (calls w) + 4))]))
           (page w ++ [Info ("Processing " ++ name uf)])
           (calls w ++ [CallExtract uf; CallChunk txt;
                        CallEmbed chunks (Some (name uf));
                        CallAdd embeddings (metadatas_of uf chunks);
                        CallNow]) /\
    VectorStore.size (vs (session w'))
    = VectorStore.size (vs (session w)) + List.length chunks /\
    forall i chunk,
      nth_error chunks i = Some chunk ->
      exists emb,
        nth_error embeddings i = Some emb /\
        nth_error (vs (session w')) (VectorStore.size (vs (session w)) + i)
        = Some (emb, Metadata (name uf) i chunk).
Proof.
  rewrite process_file_run. split.
  - destruct (extract_text_from_uploaded_file uf) as [[txt ftype] | e]
      eqn:He; [| intros H; injection H; lia].
    destruct (truthy txt) eqn:Ht; [| intros H; injection H; lia].
    destruct (chunk_text txt) as [chunks | e] eqn:Hc; [| discriminate].
    destruct (get_embeddings_batch chunks (Some (name uf)))
      as [embs | e] eqn:Hg; [| intros H; injection H; lia].
    destruct (VectorStore.add embs (metadatas_of uf chunks)
                              (vs (session w))) as [vs' | e] eqn:Ha;
      [| intros H; injection H; lia].
    apply add_inv in Ha. destruct Ha as [Hl ->].
    rewrite metadatas_of_length in Hl.
    intros H. injection H as <-.
    exists txt, ftype, chunks, embs.
    repeat (split; [reflexivity || assumption |]). simpl. split.
    + unfold VectorStore.size. rewrite length_app, length_combine.
      rewrite metadatas_of_length. lia.
    + intros i chunk Hi.
      assert (Hlt : i < List.length embs).
      { rewrite Hl. apply nth_error_Some. congruence. }
      destruct (nth_error embs i) as [emb |] eqn:Hemb;
        [| apply nth_error_None in Hemb; lia].
      exists emb. split; [reflexivity |].
      unfold VectorStore.size.
      rewrite nth_error_app2 by lia.
      replace (List.length (vs (session w)) + i
               - List.length (vs (session w))) with i by lia.
      apply nth_error_combine; [exact Hemb |].
      apply metadatas_of_nth. exact Hi.
  - intros (txt & ftype & chunks & embs & He & Ht & Hc & Hg & Hl & -> & _).
    rewrite He, Ht, Hc, Hg.
    rewrite add_ok by (rewrite metadatas_of_length; exact Hl).
    reflexivity.
Qed.

(** C9.  A file whose extracted text is empty is skipped with a warning:
    the extractor is the only collaborator called for it, so nothing is
    chunked, embedded or inserted; the session (store and document list)
    is as it was; the counter is as it was, so a batch of that one file
    reports 0 of 1 processed; and the loop goes on with the next file. *)
Theorem empty_text_file_skipped
        (uf : uploaded_file) (ftype : string)
        (rest : list uploaded_file) (n : nat) (w : world) :
  extract_text_from_uploaded_file uf = Ok ("", ftype) ->
  process_file uf n w
  = (logged w [Info ("Processing " ++ name uf);
               Warning ("No text found in " ++ name uf)]
              [CallExtract uf], Ok n) /\
  for_files (uf :: rest) n w
  = for_files rest n
      (logged w [Info ("Processing " ++ name uf);
                 Warning ("No text found in " ++ name uf)]
                [CallExtract uf]) /\
  upload_handler [uf] w
  = (logged w [ShowLoader "Processing uploaded files...";
               Info ("Processing " ++ name uf);
               Warning ("No text found in " ++ name uf);
               EmptyLoader;
               Success "Processed 0/1 files"]
              [CallExtract uf], Ok tt).
Proof.
  intros He.
  assert (Hp : forall k v,
             process_file uf k v
             = (logged v [Info ("Processing " ++ name uf);
                          Warning ("No text found in " ++ name uf)]
                        [CallExtract uf], Ok k)).
  { intros k v. rewrite process_file_run, He. reflexivity. }
  split; [apply Hp |]. split.
  - rewrite for_files_cons, Hp. reflexivity.
  - unfold upload_handler, bind at 1. unfold emit at 1.
    unfold bind at 1. rewrite for_files_cons, Hp.
    unfold for_files, ret, bind, emit, logged. simpl.
    rewrite <- !app_assoc. reflexivity.
Qed.

(** ** Following a relation through the handlers *)

Section Frames.

Context (I : world -> world -> Prop) {F : Frame I}.

Lemma respects_ret {A} (a : A) : respects I (ret a).
Proof. intros w. apply frame_refl. Qed.

Lemma respects_lift {A} (r : result A) : respects I (lift r).
Proof. intros w. apply frame_refl. Qed.

Lemma respects_get_session : respects I get_session.
Proof. intros w. apply frame_refl. Qed.

Lemma respects_logical_time : respects I logical_time.
Proof. intros w. apply frame_refl. Qed.

Lemma respects_emit (m : message) : respects I (emit m).
Proof. intros w. apply frame_page. Qed.

Lemma respects_try {A} (m : M A) : respects I m -> respects I (try_ m).
Proof.
  intros H w. specialize (H w). unfold try_.
  destruct (m w) as [w' r]. exact H.
Qed.

Lemma respects_bind {A B} (m : M A) (k : A -> M B) :
  respects I m -> (forall a, respects I (k a)) -> respects I (bind m k).
Proof.
  intros Hm Hk w. specialize (Hm w). unfold bind.
  destruct (m w) as [w' [a | e]]; simpl in *.
  - eapply frame_trans; [exact Hm | apply Hk].
  - exact Hm.
Qed.

Lemma respects_index0 {A} (l : list A) : respects I (index0 l).
Proof.
  destruct l; [apply respects_lift | apply respects_ret].
Qed.

Lemma respects_show_sources (l : list (nat * hit)) :
  respects I (show_sources l).
Proof.
  induction l as [| [i h] l IH]; simpl.
  - apply respects_ret.
  - apply respects_bind; [apply respects_emit | intros _; exact IH].
Qed.

End Frames.

#[local] Instance same_session_frame : Frame same_session.
Proof.
  split; unfold same_session.
  - reflexivity.
  - intros a b c H1 H2. congruence.
  - reflexivity.
Qed.

#[local] Instance calls_grow_frame (ok : call -> Prop)
  : Frame (calls_grow ok).
Proof.
  split; unfold calls_grow.
  - intros w. exists []. rewrite app_nil_r. split; [reflexivity | constructor].
  - intros a b c (c1 & H1 & F1) (c2 & H2 & F2). exists (c1 ++ c2).
    rewrite H2, H1, app_assoc. split; [reflexivity |].
    apply Forall_app. split; assumption.
  - intros w p. exists []. simpl. rewrite app_nil_r.
    split; [reflexivity | constructor].
Qed.

#[local] Instance keeps_consistent_frame : Frame keeps_consistent.
Proof.
  split; unfold keeps_consistent.
  - auto.
  - auto.
  - auto.
Qed.

Lemma respects_weaken (I J : world -> world -> Prop) {A} (m : M A) :
  (forall w w', I w w' -> J w w') -> respects I m -> respects J m.
Proof. intros HIJ H w. apply HIJ, H. Qed.

(** One step through a handler, whatever the relation followed. *)
Ltac frame_step :=
  match goal with
  | |- Frame _ => exact _
  | |- respects _ (bind _ _) =>
      apply respects_bind; try exact _; [| intros ?]
  | |- respects _ (ret _) => apply respects_ret
  | |- respects _ (lift _) => apply respects_lift
  | |- respects _ (emit _) => apply respects_emit
  | |- respects _ (try_ _) => apply respects_try
  | |- respects _ get_session => apply respects_get_session
  | |- respects _ logical_time => apply respects_logical_time
  | |- respects _ (index0 _) => apply respects_index0
  | |- respects _ (show_sources _) => apply respects_show_sources
  | |- respects _ (match ?x with _ => _ end) => destruct x
  end.

(** *** The session is only written by the store and document updates *)

Lemma same_session_record_call (c : call) :
  respects same_session (record_call c).
Proof. intros w. reflexivity. Qed.

Lemma answer_handler_same_session (wd : widgets) :
  respects same_session (answer_handler wd).
Proof.
  unfold answer_handler, embed, vs_search, generate.
  repeat first [frame_step | apply same_session_record_call].
Qed.

Lemma documents_view_same_session (wd : widgets) :
  respects same_session (documents_view wd).
Proof.
  unfold documents_view.
  repeat first [frame_step | apply answer_handler_same_session].
Qed.

(** *** Consistency of store and document list *)

Lemma map_snd_combine {A B D} (g : B -> D) (l1 : list A) :
  forall l2 : list B,
    List.length l1 = List.length l2 ->
    map (fun p => g (snd p)) (combine l1 l2) = map g l2.
Proof.
  induction l1 as [| a l1 IH]; intros [| b l2] H; simpl in *;
    try discriminate; try reflexivity.
  f_equal. apply IH. lia.
Qed.

Lemma enumerate_accounted (uf : uploaded_file) (chunks : list string) :
  forall k,
    map (fun m => (document m, chunk_index m))
        (map (fun '(idx, chunk) => Metadata (name uf) idx chunk)
             (enumerate k chunks))
    = map (fun i => (name uf, i)) (seq k (List.length chunks)).
Proof.
  unfold enumerate. induction chunks as [| c chunks IH]; intros k; simpl.
  - reflexivity.
  - f_equal. apply IH.
Qed.

Lemma consistent_after_add (s : session_state) (uf : uploaded_file)
      (chunks : list string) (embeddings : list embedding)
      (len : nat) (ts : string) :
  consistent s ->
  List.length embeddings = List.length chunks ->
  consistent
    (SessionState
       (vs s ++ combine embeddings (metadatas_of uf chunks))
       (documents s ++ [Doc.mk (name uf) len (List.length chunks) ts])).
Proof.
  unfold consistent, chunks_accounted. intros Hs Hl. simpl.
  rewrite map_app, flat_map_app, Hs. f_equal. simpl. rewrite app_nil_r.
  rewrite (map_snd_combine (fun m => (document m, chunk_index m)))
    by (rewrite metadatas_of_length; exact Hl).
  apply enumerate_accounted.
Qed.

Lemma clear_handler_run (w : world) :
  clear_handler w
  = (World (SessionState VectorStore.empty [])
           (page w ++ [SidebarSuccess "Cleared all in-memory data"])
           (calls w ++ [CallReset]), Ok tt).
Proof. reflexivity. Qed.

(** What the loop body can do to the session: nothing, or one successful
    [add] followed by the append of the file's document record. *)
Lemma process_file_session (uf : uploaded_file) (n : nat) (w : world) :
  session (fst (process_file uf n w)) = session w \/
  exists txt embeddings chunks ts,
    VectorStore.add embeddings (metadatas_of uf chunks) (vs (session w))
    = Ok (vs (session (fst (process_file uf n w)))) /\
    documents (session (fst (process_file uf n w)))
    = documents (session w)
        ++ [Doc.mk (name uf) (len txt) (List.length chunks) ts] /\
    In (CallAdd embeddings (metadatas_of uf chunks))
       (calls (fst (process_file uf n w))) /\
    snd (process_file uf n w) = Ok (n + 1).
Proof.
  rewrite process_file_run.
  destruct (extract_text_from_uploaded_file uf) as [[txt ftype] | e];
    [| left; reflexivity].
  destruct (truthy txt); [| left; reflexivity].
  destruct (chunk_text txt) as [chunks | e]; [| left; reflexivity].
  destruct (get_embeddings_batch chunks (Some (name uf))) as [embs | e];
    [| left; reflexivity].
  destruct (VectorStore.add embs (metadatas_of uf chunks) (vs (session w)))
    as [vs' | e] eqn:Ha; [| left; reflexivity].
  right. exists txt, embs, chunks. eexists. simpl.
  split; [exact Ha |]. split; [reflexivity |]. split; [| reflexivity].
  apply in_or_app. right. simpl. tauto.
Qed.

Lemma process_file_keeps_consistent (uf : uploaded_file) (n : nat) :
  respects keeps_consistent (process_file uf n).
Proof.
  intros w Hc.
  destruct (process_file_session uf n w)
    as [-> | (txt & embs & chunks & ts & Ha & Hd & _ & _)]; [exact Hc |].
  apply add_inv in Ha. destruct Ha as [Hl Hv].
  rewrite metadatas_of_length in Hl.
  pose proof (@consistent_after_add (session w) uf chunks embs
                (len txt) ts Hc Hl) as H.
  rewrite <- Hv, <- Hd in H.
  destruct (session (fst (process_file uf n w))). exact H.
Qed.

Lemma for_files_keeps_consistent (files : list uploaded_file) :
  forall n, respects keeps_consistent (for_files files n).
Proof.
  induction files as [| uf rest IH]; intros n; simpl.
  - apply respects_ret. exact _.
  - apply respects_bind; [exact _ | apply process_file_keeps_consistent |].
    intros n'. apply IH.
Qed.

Lemma script_keeps_consistent (wd : widgets) :
  respects keeps_consistent (script wd).
Proof.
  unfold script.
  apply respects_bind; [exact _ | | intros _].
  { destruct (clear_all_data wd); [| apply respects_ret; exact _].
    intros w _. rewrite clear_handler_run. reflexivity. }
  apply respects_bind; [exact _ | | intros _].
  { destruct (nonempty (uploaded_files wd) && process_files wd)%bool;
      [| apply respects_ret; exact _].
    unfold upload_handler.
    repeat first [frame_step | apply for_files_keeps_consistent]. }
  apply (respects_weaken (I := same_session));
    [| apply documents_view_same_session].
  unfold same_session, keeps_consistent. intros w w' ->. tauto.
Qed.

Lemma reachable_consistent (s : session_state) :
  reachable s -> consistent s.
Proof.
  induction 1 as [| wd s Hr IH].
  - reflexivity.
  - exact (script_keeps_consistent wd (World s [] []) IH).
Qed.

(** C8.  Every session the interface can reach, after any sequence of
    runs (clearing, uploading, asking, also runs cut short by an uncaught
    exception), is consistent: the store holds, in order, exactly the
    chunks the document records account for.  The loop body changes the
    session only by one successful [add] followed by the append of that
    file's record, whose chunk count is the number of metadata records
    added; and clearing leaves the store and the document list both
    empty. *)
Theorem session_stays_consistent :
  (forall s, reachable s -> consistent s) /\
  (forall uf n w,
      session (fst (process_file uf n w)) = session w \/
      exists embeddings metadatas d,
        VectorStore.add embeddings metadatas (vs (session w))
        = Ok (vs (session (fst (process_file uf n w)))) /\
        documents (session (fst (process_file uf n w)))
        = documents (session w) ++ [d] /\
        Doc.name d = name uf /\
        Doc.chunks d = List.length metadatas /\
        VectorStore.size (vs (session (fst (process_file uf n w))))
        = VectorStore.size (vs (session w)) + Doc.chunks d /\
        In (CallAdd embeddings metadatas)
           (calls (fst (process_file uf n w))) /\
        snd (process_file uf n w) = Ok (n + 1)) /\
  (forall w,
      session (fst (clear_handler w)) = SessionState VectorStore.empty [] /\
      snd (clear_handler w) = Ok tt).
Proof.
  split; [exact reachable_consistent |]. split.
  - intros uf n w.
    destruct (process_file_session uf n w)
      as [H | (txt & embs & chunks & ts & Ha & Hd & Hin & Hr)];
      [left; exact H | right].
    exists embs, (metadatas_of uf chunks). eexists.
    split; [exact Ha |]. split; [exact Hd |]. simpl.
    split; [reflexivity |].
    split; [symmetry; apply metadatas_of_length |].
    split; [| split; assumption].
    apply add_inv in Ha. destruct Ha as [Hl ->].
    unfold VectorStore.size.
    rewrite length_app, length_combine, metadatas_of_length in *. lia.
  - intros w. rewrite clear_handler_run. split; reflexivity.
Qed.

(** ** The claims about questions *)

Lemma show_sources_run (l : list (nat * hit)) :
  forall w,
    show_sources l w
    = (World (session w)
             (page w ++ map (fun '(i, h) => Markdown (source_box i h)) l)
             (calls w), Ok tt).
Proof.
  induction l as [| [i h] l IH]; intros w; simpl.
  - unfold ret. rewrite app_nil_r. destruct w; reflexivity.
  - unfold bind, emit. rewrite IH. simpl. rewrite <- app_assoc. reflexivity.
Qed.

(** C7.  When the question is not blank, the search returns hits and
    [generate_answer] raises, the handler ends normally: the exception is
    on the page as an error message, the answer box is shown, written out
    here as it reaches the page, with the fixed string
    "Error: Unable to generate answer." in place of the answer, the
    sources follow, and the session is as it was. *)
Theorem failed_generation_shows_fixed_error
        (wd : widgets) (w : world) (q_emb : embedding)
        (embs : list embedding) (hits : list hit) (e : exn) :
  truthy (strip (question wd)) = true ->
  get_embeddings_batch [question wd] None = Ok (q_emb :: embs) ->
  VectorStore.search (vs (session w)) q_emb (Z.to_nat (top_k_of wd))
  = Ok hits ->
  hits <> [] ->
  generate_answer (question wd) (contexts_of hits) = Raise e ->
  answer_handler wd w
  = (logged w
       ([ShowLoader "Searching relevant passages...";
         EmptyLoader;
         ShowLoader "Generating answer...";
         Error ("Answer generation error: " ++ exn_str e);
         EmptyLoader;
         Markdown
           (nl ++ "                <div class=" ++ dq ++ "answer-box" ++ dq
               ++ ">" ++ nl ++ "                    <h3>🤖 Answer</h3>"
               ++ nl
               ++ "                    <p>Error: Unable to generate answer.</p>"
               ++ nl ++ "                </div>" ++ nl
               ++ "                ");
         Subheader "📖 Sources"]
          ++ map (fun '(i, h) => Markdown (source_box i h))
                 (enumerate 1 hits))
       [CallEmbed [question wd] None;
        CallSearch q_emb (top_k_of wd);
        CallGenerate (question wd) (contexts_of hits)], Ok tt).
Proof.
  intros Hq Hemb Hsearch Hhits Hgen.
  unfold answer_handler. rewrite Hq.
  unfold embed, vs_search, generate.
  unfold bind, try_, emit, record_call, lift, get_session, index0, ret.
  simpl. rewrite Hemb. simpl. rewrite Hsearch. simpl.
  destruct hits as [| h hits]; [contradiction |].
  cbn [nonempty negb]. rewrite Hgen. simpl.
  unfold bind, emit. rewrite show_sources_run. unfold logged. simpl.
  rewrite <- !app_assoc. reflexivity.
Qed.

(** ** The claim about [top_k] *)

Lemma calls_grow_record_call (ok : call -> Prop) (c : call) :
  ok c -> respects (calls_grow ok) (record_call c).
Proof.
  intros H w. exists [c]. simpl. split; [reflexivity |].
  constructor; [exact H | constructor].
Qed.

Lemma calls_grow_put_session (ok : call -> Prop) (s : session_state) :
  respects (calls_grow ok) (put_session s).
Proof.
  intros w. exists []. simpl. rewrite app_nil_r.
  split; [reflexivity | constructor].
Qed.

Ltac calls_step :=
  first [ frame_step
        | apply calls_grow_put_session
        | apply calls_grow_record_call; simpl; trivial ].

Lemma for_files_calls (ok : call -> Prop) (files : list uploaded_file) :
  (forall c, (forall q k, c <> CallSearch q k) -> ok c) ->
  forall n, respects (calls_grow ok) (for_files files n).
Proof.
  intros Hok.
  induction files as [| uf rest IH]; intros n; simpl.
  - apply respects_ret. exact _.
  - apply respects_bind; [exact _ | | intros n'; apply IH].
    unfold process_file, extract, chunk, embed, vs_add, now,
      append_document.
    repeat first [ frame_step
                 | apply calls_grow_put_session
                 | apply calls_grow_record_call; apply Hok;
                   intros; discriminate ].
Qed.

Lemma script_calls (wd : widgets) :
  respects (calls_grow (searches_with (top_k_of wd))) (script wd).
Proof.
  unfold script.
  apply respects_bind; [exact _ | | intros _].
  { unfold clear_handler, vs_reset, set_documents. repeat calls_step. }
  apply respects_bind; [exact _ | | intros _].
  { destruct (nonempty (uploaded_files wd) && process_files wd)%bool;
      [| apply respects_ret; exact _].
    unfold upload_handler.
    repeat first [ frame_step | apply for_files_calls ].
    intros c Hc. destruct c; simpl; trivial.
    exfalso. eapply Hc. reflexivity. }
  unfold documents_view, answer_handler, embed, vs_search, generate.
  repeat calls_step.
Qed.

(** C10.  The value handed to [search] as [top_k] is the slider's: it lies
    between 1 and 10, it is 4 while the slider has not been moved, and no
    run of the script calls [search] with any other value. *)
Theorem search_top_k_within_slider_bounds
        (wd : widgets) (s : session_state) :
  (1 <= top_k_of wd <= 10)%Z /\
  (top_k_position wd = None -> top_k_of wd = 4%Z) /\
  forall q k,
    In (CallSearch q k) (calls (fst (run wd s))) ->
    k = top_k_of wd /\ (1 <= k <= 10)%Z.
Proof.
  assert (Hb : (1 <= top_k_of wd <= 10)%Z).
  { unfold top_k_of, slider. destruct (top_k_position wd); lia. }
  split; [exact Hb |]. split.
  - intros H. unfold top_k_of. rewrite H. reflexivity.
  - intros q k Hin.
    destruct (script_calls wd (World s [] [])) as (cs & Hcs & Hok).
    unfold run in Hin. rewrite Hcs in Hin. simpl in Hin.
    rewrite Forall_forall in Hok. specialize (Hok _ Hin). simpl in Hok.
    subst k. split; [reflexivity | exact Hb].
Qed.

(** ** Further facts: the Get Answer handler, outcome by outcome *)

(** The handler in direct style: what one click does to the world, decided
    by what the embedder, the store and the generator answer. *)
Lemma answer_handler_run (wd : widgets) (w : world) :
  answer_handler wd w =
  if truthy (strip (question wd)) then
    match get_embeddings_batch [question wd] None with
    | Raise e =>
        (logged w [ShowLoader "Searching relevant passages...";
                   Error ("Search error: " ++ exn_str e);
                   EmptyLoader;
                   Warning "No relevant passages found. Please upload documents first."]
                  [CallEmbed [question wd] None], Ok tt)
    | Ok [] =>
        (logged w [ShowLoader "Searching relevant passages...";
                   Error ("Search error: " ++ exn_str IndexError);
                   EmptyLoader;
                   Warning "No relevant passages found. Please upload documents first."]
                  [CallEmbed [question wd] None], Ok tt)
    | Ok (q_emb :: _) =>
        match VectorStore.search (vs (session w)) q_emb
                                 (Z.to_nat (top_k_of wd)) with
        | Raise e =>
            (logged w [ShowLoader "Searching relevant passages...";
                       Error ("Search error: " ++ exn_str e);
                       EmptyLoader;
                       Warning "No relevant passages found. Please upload documents first."]
                      [CallEmbed [question wd] None;
                       CallSearch q_emb (top_k_of wd)], Ok tt)
        | Ok [] =>
            (logged w [ShowLoader "Searching relevant passages...";
                       EmptyLoader;
                       Warning "No relevant passages found. Please upload documents first."]
                      [CallEmbed [question wd] None;
                       CallSearch q_emb (top_k_of wd)], Ok tt)
        | Ok (h :: hs) =>
            match generate_answer (question wd) (contexts_of (h :: hs)) with
            | Raise e =>
                (logged w
                   ([ShowLoader "Searching relevant passages...";
                     EmptyLoader;
                     ShowLoader "Generating answer...";
                     Error ("Answer generation error: " ++ exn_str e);
                     EmptyLoader;
                     Markdown (answer_box "Error: Unable to generate answer.");
                     Subheader "📖 Sources"] ++ sources_of (h :: hs))
                   [CallEmbed [question wd] None;
                    CallSearch q_emb (top_k_of wd);
                    CallGenerate (question wd) (contexts_of (h :: hs))],
                 Ok tt)
            | Ok answer =>
                (logged w
                   ([ShowLoader "Searching relevant passages...";
                     EmptyLoader;
                     ShowLoader "Generating answer...";
                     EmptyLoader;
                     Markdown (answer_box answer);
                     Subheader "📖 Sources"] ++ sources_of (h :: hs))
                   [CallEmbed [question wd] None;
                    CallSearch q_emb (top_k_of wd);
                    CallGenerate (question wd) (contexts_of (h :: hs))],
                 Ok tt)
            end
        end
    end
  else
    (World (session w)
           (page w ++ [Warning "Please enter a question first."])
           (calls w), Ok tt).
Proof.
  unfold answer_handler, sources_of.
  destruct (truthy (strip (question wd))); [| reflexivity].
  unfold embed, vs_search, generate.
  unfold bind, try_, emit, record_call, lift, get_session, index0, ret.
  cbn [negb].
  destruct (get_embeddings_batch [question wd] None) as [[| q_emb embs] | e];
    cbn [fst snd session page calls].
  - unfold logged. cbn. rewrite <- !app_assoc. reflexivity.
  - destruct (VectorStore.search (vs (session w)) q_emb
                                 (Z.to_nat (top_k_of wd)))
      as [[| h hs] | e]; cbn [fst snd session page calls nonempty negb].
    + unfold logged. cbn. rewrite <- !app_assoc. reflexivity.
    + destruct (generate_answer (question wd) (contexts_of (h :: hs)))
        as [answer | e]; cbn [fst snd session page calls];
        unfold bind, emit; rewrite show_sources_run; unfold logged;
        cbn [fst snd session page calls]; rewrite <- !app_assoc;
        reflexivity.
    + unfold logged. cbn. rewrite <- !app_assoc. reflexivity.
  - unfold logged. cbn. rewrite <- !app_assoc. reflexivity.
Qed.

(** X1.  When the question's embedding or the search fails (the embedder
    raises, it answers no vector, or the search raises), the handler ends
    normally: the page shows the search error with the exception's text and
    then the no-passages warning, and the generator is not called. *)
Theorem search_failure_recovered
        (wd : widgets) (w : world) (e : exn) (cs : list call) :
  truthy (strip (question wd)) = true ->
  query_fails wd (vs (session w)) e cs ->
  answer_handler wd w
  = (logged w [ShowLoader "Searching relevant passages...";
               Error ("Search error: " ++ exn_str e);
               EmptyLoader;
               Warning "No relevant passages found. Please upload documents first."]
              cs, Ok tt).
Proof.
  intros Hq Hf. rewrite answer_handler_run, Hq.
  destruct Hf as [[He ->] | [(He & -> & ->) | (q & embs & He & Hs & ->)]].
  - rewrite He. reflexivity.
  - rewrite He. reflexivity.
  - rewrite He, Hs. reflexivity.
Qed.

(** X2.  When the search succeeds with no hit, the page shows the
    no-passages warning and no error, and the generator is not called. *)
Theorem no_hits_warns_without_generating
        (wd : widgets) (w : world) (q_emb : embedding)
        (embs : list embedding) :
  truthy (strip (question wd)) = true ->
  get_embeddings_batch [question wd] None = Ok (q_emb :: embs) ->
  VectorStore.search (vs (session w)) q_emb (Z.to_nat (top_k_of wd))
  = Ok [] ->
  answer_handler wd w
  = (logged w [ShowLoader "Searching relevant passages...";
               EmptyLoader;
               Warning "No relevant passages found. Please upload documents first."]
              [CallEmbed [question wd] None;
               CallSearch q_emb (top_k_of wd)], Ok tt).
Proof.
  intros Hq He Hs. rewrite answer_handler_run, Hq, He, Hs. reflexivity.
Qed.

Lemma string_append_assoc (a b c : string) :
  ((a ++ b) ++ c)%string = (a ++ (b ++ c))%string.
Proof.
  induction a as [| x a IH]; simpl; [reflexivity | rewrite IH; reflexivity].
Qed.

Lemma string_append_nil_r (a : string) : (a ++ "")%string = a.
Proof.
  induction a as [| x a IH]; simpl; [reflexivity | rewrite IH; reflexivity].
Qed.

(** The source box of a hit, written out. *)
Lemma source_box_text (i : nat) (h : hit) :
  source_box i h
  = (nl ++ "                    <div class=" ++ dq ++ "source-box" ++ dq
        ++ ">" ++ nl ++ "                        <strong>Source "
        ++ str_of_nat i ++ ":</strong> " ++ document (hit_metadata h)
        ++ " — score " ++ format_3f (score h) ++ "<br>" ++ nl
        ++ "                        "
        ++ preview (text (hit_metadata h))
        ++ nl ++ "                    </div>" ++ nl
        ++ "                    ")%string.
Proof.
  unfold source_box, preview. cbn [spaces repeat String.concat].
  rewrite !string_append_assoc. reflexivity.
Qed.

Lemma sources_of_length (hits : list hit) :
  List.length (sources_of hits) = List.length hits.
Proof.
  unfold sources_of, enumerate.
  rewrite length_map, length_combine, length_seq. apply Nat.min_id.
Qed.

(** X3.  When the search returns hits and the generator answers, the
    generator got the question as typed and one context per hit, in hit
    order; the page shows the answer in the answer box, with no error
    message, followed by one source box per hit, numbered from 1, with
    the hit's document, score and text preview.  Answer box and source
    boxes are written out as they reach the page. *)
Theorem successful_answer_displayed
        (wd : widgets) (w : world) (q_emb : embedding)
        (embs : list embedding) (hits : list hit) (answer : string) :
  truthy (strip (question wd)) = true ->
  get_embeddings_batch [question wd] None = Ok (q_emb :: embs) ->
  VectorStore.search (vs (session w)) q_emb (Z.to_nat (top_k_of wd))
  = Ok hits ->
  hits <> [] ->
  generate_answer (question wd) (contexts_of hits) = Ok answer ->
  answer_handler wd w
  = (logged w
       ([ShowLoader "Searching relevant passages...";
         EmptyLoader;
         ShowLoader "Generating answer...";
         EmptyLoader;
         Markdown
           (nl ++ "                <div class=" ++ dq ++ "answer-box" ++ dq
               ++ ">" ++ nl ++ "                    <h3>🤖 Answer</h3>"
               ++ nl
               ++ "                    <p>" ++ answer ++ "</p>"
               ++ nl ++ "                </div>" ++ nl
               ++ "                ");
         Subheader "📖 Sources"] ++ sources_of hits)
       [CallEmbed [question wd] None;
        CallSearch q_emb (top_k_of wd);
        CallGenerate (question wd) (contexts_of hits)], Ok tt) /\
  sources_of hits
  = map (fun '(i, h) =>
           Markdown
             (nl ++ "                    <div class=" ++ dq ++ "source-box"
                 ++ dq ++ ">" ++ nl
                 ++ "                        <strong>Source "
                 ++ str_of_nat i ++ ":</strong> "
                 ++ document (hit_metadata h) ++ " — score "
                 ++ format_3f (score h) ++ "<br>" ++ nl
                 ++ "                        "
                 ++ preview (text (hit_metadata h))
                 ++ nl ++ "                    </div>" ++ nl
                 ++ "                    "))
        (combine (seq 1 (List.length hits)) hits) /\
  List.length (sources_of hits) = List.length hits /\
  map Ctx.text (contexts_of hits) = map (fun h => text (hit_metadata h)) hits /\
  map Ctx.source (contexts_of hits)
  = map (fun h => document (hit_metadata h)) hits.
Proof.
  intros Hq He Hs Hn Hg. split; [| split; [| split; [| split]]].
  - rewrite answer_handler_run, Hq, He, Hs.
    destruct hits as [| h hs]; [contradiction |]. rewrite Hg. reflexivity.
  - unfold sources_of, enumerate. apply map_ext. intros [i h].
    rewrite source_box_text. reflexivity.
  - apply sources_of_length.
  - unfold contexts_of. rewrite map_map. reflexivity.
  - unfold contexts_of. rewrite map_map. reflexivity.
Qed.

Lemma answer_handler_ok (wd : widgets) (w : world) :
  snd (answer_handler wd w) = Ok tt /\
  session (fst (answer_handler wd w)) = session w.
Proof.
  rewrite answer_handler_run.
  destruct (truthy (strip (question wd))); [| split; reflexivity].
  destruct (get_embeddings_batch [question wd] None) as [[| q embs] | e];
    try (split; reflexivity).
  destruct (VectorStore.search (vs (session w)) q (Z.to_nat (top_k_of wd)))
    as [[| h hs] | e]; try (split; reflexivity).
  destruct (generate_answer (question wd) (contexts_of (h :: hs)));
    split; reflexivity.
Qed.

(** X4.  Whatever the embedder, the store and the generator do, raise
    included, a click on Get Answer ends normally and leaves the session
    (store and document list) as it was; at most one embedding, one search
    and one generation are requested, in that order. *)
Theorem answer_handler_never_raises (wd : widgets) (w : world) :
  snd (answer_handler wd w) = Ok tt /\
  session (fst (answer_handler wd w)) = session w /\
  exists cs,
    calls (fst (answer_handler wd w)) = calls w ++ cs /\
    (cs = [] \/
     cs = [CallEmbed [question wd] None] \/
     (exists q_emb,
         cs = [CallEmbed [question wd] None;
               CallSearch q_emb (top_k_of wd)]) \/
     (exists q_emb contexts,
         cs = [CallEmbed [question wd] None;
               CallSearch q_emb (top_k_of wd);
               CallGenerate (question wd) contexts])).
Proof.
  destruct (answer_handler_ok wd w) as [H1 H2].
  split; [exact H1 |]. split; [exact H2 |].
  rewrite answer_handler_run.
  destruct (truthy (strip (question wd))).
  2: { exists []. simpl. rewrite app_nil_r. tauto. }
  destruct (get_embeddings_batch [question wd] None) as [[| q embs] | e].
  - eexists. split; [reflexivity |]. tauto.
  - destruct (VectorStore.search (vs (session w)) q (Z.to_nat (top_k_of wd)))
      as [[| h hs] | e].
    + eexists. split; [reflexivity |]. right. right. left. eauto.
    + destruct (generate_answer (question wd) (contexts_of (h :: hs)));
        (eexists; split; [reflexivity |]; right; right; right; eauto).
    + eexists. split; [reflexivity |]. right. right. left. eauto.
  - eexists. split; [reflexivity |]. tauto.
Qed.

(** ** Further facts: the upload loop as a whole *)

(** The loop body either leaves the session alone, ending normally with the
    counter as it was or with the chunker's exception; or it appends one
    document record and that file's entries and counts the file. *)
Lemma process_file_outcome (uf : uploaded_file) (n : nat) (w : world) :
  (exists msgs cs,
      fst (process_file uf n w) = logged w msgs cs /\
      Forall upload_call cs /\
      (snd (process_file uf n w) = Ok n \/
       exists e txt ftype,
         snd (process_file uf n w) = Raise e /\
         extract_text_from_uploaded_file uf = Ok (txt, ftype) /\
         truthy txt = true /\
         chunk_text txt = Raise e)) \/
  (exists d entries msgs cs,
      fst (process_file uf n w)
      = World (SessionState (vs (session w) ++ entries)
                            (documents (session w) ++ [d]))
              (page w ++ msgs) (calls w ++ cs) /\
      List.length entries = Doc.chunks d /\
      Forall upload_call cs /\
      snd (process_file uf n w) = Ok (n + 1)).
Proof.
  rewrite process_file_run.
  destruct (extract_text_from_uploaded_file uf) as [[txt ftype] | e] eqn:He.
  2: { left. do 2 eexists. split; [reflexivity |].
       split; [repeat constructor | left; reflexivity]. }
  destruct (truthy txt) eqn:Ht.
  2: { left. do 2 eexists. split; [reflexivity |].
       split; [repeat constructor | left; reflexivity]. }
  destruct (chunk_text txt) as [chunks | e] eqn:Hc.
  2: { left. do 2 eexists. split; [reflexivity |].
       split; [repeat constructor |].
       right. exists e, txt, ftype. repeat split; assumption. }
  destruct (get_embeddings_batch chunks (Some (name uf))) as [embs | e].
  2: { left. do 2 eexists. split; [reflexivity |].
       split; [repeat constructor | left; reflexivity]. }
  destruct (VectorStore.add embs (metadatas_of uf chunks) (vs (session w)))
    as [vs' | e] eqn:Ha.
  2: { left. do 2 eexists. split; [reflexivity |].
       split; [repeat constructor | left; reflexivity]. }
  right. apply add_inv in Ha. destruct Ha as [Hl ->].
  do 4 eexists. split; [reflexivity |]. simpl.
  split; [| split; [repeat constructor | reflexivity]].
  rewrite length_combine, Hl, metadatas_of_length. apply Nat.min_id.
Qed.

Lemma world_eta (w : world) :
  w = World (SessionState (vs (session w) ++ [])
                          (documents (session w) ++ []))
            (page w ++ []) (calls w ++ []).
Proof.
  rewrite !app_nil_r. destruct w as [[v d] p c]. reflexivity.
Qed.

(** The loop: what it appends, what it calls, and how it can end. *)
Lemma for_files_outcome (files : list uploaded_file) :
  forall n w,
  exists new_docs new_entries msgs cs,
    fst (for_files files n w)
    = World (SessionState (vs (session w) ++ new_entries)
                          (documents (session w) ++ new_docs))
            (page w ++ msgs) (calls w ++ cs) /\
    List.length new_entries = total_chunks new_docs /\
    List.length new_docs <= List.length files /\
    Forall upload_call cs /\
    (snd (for_files files n w) = Ok (n + List.length new_docs) \/
     exists e uf txt ftype,
       snd (for_files files n w) = Raise e /\
       In uf files /\
       extract_text_from_uploaded_file uf = Ok (txt, ftype) /\
       truthy txt = true /\
       chunk_text txt = Raise e).
Proof.
  induction files as [| uf rest IH]; intros n w.
  - exists [], [], [], []. simpl. unfold ret. simpl.
    split; [apply world_eta |]. split; [reflexivity |].
    split; [lia |]. split; [constructor |]. left. f_equal. lia.
  - rewrite for_files_cons.
    destruct (process_file_outcome uf n w)
      as [(msgs & cs & Hw & Hcs & Hr)
         | (d & entries & msgs & cs & Hw & Hl & Hcs & Hr)];
      destruct (process_file uf n w) as [w1 r1]; simpl in Hw, Hr;
      subst w1.
    + destruct Hr as [-> | (e & txt & ftype & -> & He & Ht & Hc)].
      * destruct (IH n (logged w msgs cs))
          as (nd & ne & m' & c' & Hw' & Hl' & Hn' & Hc' & Hr').
        exists nd, ne, (msgs ++ m'), (cs ++ c').
        rewrite Hw'. unfold logged. simpl. rewrite !app_assoc.
        split; [reflexivity |]. split; [exact Hl' |].
        split; [simpl; lia |].
        split; [apply Forall_app; split; assumption |].
        destruct Hr' as [Hr' | (e & uf' & txt & ftype & Hr' & Hin & Hx)].
        -- left. exact Hr'.
        -- right. exists e, uf', txt, ftype.
           split; [exact Hr' |]. split; [right; exact Hin | exact Hx].
      * exists [], [], msgs, cs. unfold logged. simpl.
        rewrite !app_nil_r. split; [destruct (session w); reflexivity |].
        split; [reflexivity |]. split; [lia |]. split; [exact Hcs |].
        right. exists e, uf, txt, ftype.
        split; [reflexivity |]. split; [left; reflexivity |].
        repeat split; assumption.
    + subst r1.
      destruct (IH (n + 1)
                   (World (SessionState (vs (session w) ++ entries)
                                        (documents (session w) ++ [d]))
                          (page w ++ msgs) (calls w ++ cs)))
        as (nd & ne & m' & c' & Hw' & Hl' & Hn' & Hc' & Hr').
      exists (d :: nd), (entries ++ ne), (msgs ++ m'), (cs ++ c').
      rewrite Hw'. simpl. rewrite <- !app_assoc. simpl.
      split; [reflexivity |].
      split; [rewrite length_app, Hl, Hl'; reflexivity |].
      split; [lia |].
      split; [apply Forall_app; split; assumption |].
      destruct Hr' as [Hr' | (e & uf' & txt & ftype & Hr' & Hin & Hx)].
      * left. rewrite Hr'. f_equal. lia.
      * right. exists e, uf', txt, ftype.
        split; [exact Hr' |]. split; [right; exact Hin | exact Hx].
Qed.

Lemma upload_handler_run (files : list uploaded_file) (w : world) :
  upload_handler files w =
  match for_files files 0
          (World (session w)
                 (page w ++ [ShowLoader "Processing uploaded files..."])
                 (calls w)) with
  | (w1, Ok processed) =>
      (World (session w1)
             (page w1
                ++ [EmptyLoader;
                    Success ("Processed " ++ str_of_nat processed ++ "/"
                               ++ str_of_nat (List.length files)
                               ++ " files")])
             (calls w1), Ok tt)
  | (w1, Raise e) => (w1, Raise e)
  end.
Proof.
  unfold upload_handler. unfold bind at 1. unfold emit at 1.
  unfold bind at 1.
  destruct (for_files files 0 _) as [w1 [processed | e]]; [| reflexivity].
  unfold bind, emit. cbn [fst snd session page calls].
  rewrite <- app_assoc. reflexivity.
Qed.

(** The upload handler: what it appends, what it calls, how it ends. *)
Lemma upload_handler_outcome (files : list uploaded_file) (w : world) :
  exists new_docs new_entries msgs cs,
    fst (upload_handler files w)
    = World (SessionState (vs (session w) ++ new_entries)
                          (documents (session w) ++ new_docs))
            (page w ++ msgs) (calls w ++ cs) /\
    List.length new_entries = total_chunks new_docs /\
    List.length new_docs <= List.length files /\
    Forall upload_call cs /\
    ((snd (upload_handler files w) = Ok tt /\
      exists msgs',
        msgs = msgs'
                 ++ [EmptyLoader;
                     Success ("Processed "
                                ++ str_of_nat (List.length new_docs) ++ "/"
                                ++ str_of_nat (List.length files)
                                ++ " files")]) \/
     exists e uf txt ftype,
       snd (upload_handler files w) = Raise e /\
       In uf files /\
       extract_text_from_uploaded_file uf = Ok (txt, ftype) /\
       truthy txt = true /\
       chunk_text txt = Raise e).
Proof.
  rewrite upload_handler_run.
  destruct (for_files_outcome files 0
              (World (session w)
                     (page w ++ [ShowLoader "Processing uploaded files..."])
                     (calls w)))
    as (nd & ne & msgs & cs & Hw & Hl & Hn & Hc & Hr).
  destruct (for_files files 0 _) as [w1 r1]. simpl in Hw, Hr. subst w1.
  cbn [session page calls vs documents] in *.
  destruct Hr as [-> | (e & uf & txt & ftype & -> & Hx)].
  - exists nd, ne,
      ((ShowLoader "Processing uploaded files..." :: msgs)
         ++ [EmptyLoader;
             Success ("Processed " ++ str_of_nat (List.length nd) ++ "/"
                        ++ str_of_nat (List.length files) ++ " files")]),
      cs.
    cbn [fst snd session page calls vs documents].
    split; [rewrite <- !app_assoc; reflexivity |].
    split; [exact Hl |]. split; [exact Hn |]. split; [exact Hc |].
    left. split; [reflexivity |]. eexists. reflexivity.
  - exists nd, ne, (ShowLoader "Processing uploaded files..." :: msgs), cs.
    cbn [fst snd session page calls vs documents].
    split; [rewrite <- !app_assoc; reflexivity |].
    split; [exact Hl |]. split; [exact Hn |]. split; [exact Hc |].
    right. exists e, uf, txt, ftype. split; [reflexivity | exact Hx].
Qed.

(** X5.  A file whose text the chunker cannot take ends the whole run: the
    exception of [chunk_text], raised outside every [try], leaves the
    loop; the files after it are not looked at, neither the success
    message nor the documents view is shown, and the session is as the
    files before it left it. *)
Theorem chunk_failure_aborts_batch
        (uf : uploaded_file) (rest : list uploaded_file) (n : nat)
        (w : world) (txt ftype : string) (e : exn) :
  extract_text_from_uploaded_file uf = Ok (txt, ftype) ->
  truthy txt = true ->
  chunk_text txt = Raise e ->
  for_files (uf :: rest) n w
  = (logged w [Info ("Processing " ++ name uf)]
              [CallExtract uf; CallChunk txt], Raise e) /\
  upload_handler (uf :: rest) w
  = (logged w [ShowLoader "Processing uploaded files...";
               Info ("Processing " ++ name uf)]
              [CallExtract uf; CallChunk txt], Raise e) /\
  forall wd s,
    clear_all_data wd = false ->
    uploaded_files wd = uf :: rest ->
    process_files wd = true ->
    run wd s
    = (World s [ShowLoader "Processing uploaded files...";
                Info ("Processing " ++ name uf)]
               [CallExtract uf; CallChunk txt], Raise e).
Proof.
  intros He Ht Hc.
  assert (Hp : forall k v,
             process_file uf k v
             = (logged v [Info ("Processing " ++ name uf)]
                         [CallExtract uf; CallChunk txt], Raise e)).
  { intros k v. rewrite process_file_run, He, Ht, Hc. reflexivity. }
  assert (Hu : forall v,
             upload_handler (uf :: rest) v
             = (logged v [ShowLoader "Processing uploaded files...";
                          Info ("Processing " ++ name uf)]
                         [CallExtract uf; CallChunk txt], Raise e)).
  { intros v. rewrite upload_handler_run, for_files_cons, Hp.
    unfold logged. cbn [session page calls]. rewrite <- app_assoc.
    reflexivity. }
  split; [rewrite for_files_cons, Hp; reflexivity |].
  split; [apply Hu |].
  intros wd s Hcl Hf Hpr. unfold run, script.
  rewrite Hcl, Hf, Hpr. cbn [nonempty andb].
  unfold bind at 1. unfold ret at 1. unfold bind at 1. rewrite Hu.
  reflexivity.
Qed.

(** X6.  An upload only appends: the documents and the store entries that
    were there stay, in place; the store grows by as many entries as the
    new document records count chunks; at most one record is added per
    file; and when the batch ends normally the page ends with the
    processed count, which is the number of records added, over the number
    of files. *)
Theorem upload_appends_and_counts
        (files : list uploaded_file) (w : world) :
  exists new_docs new_entries,
    documents (session (fst (upload_handler files w)))
    = documents (session w) ++ new_docs /\
    vs (session (fst (upload_handler files w)))
    = vs (session w) ++ new_entries /\
    List.length new_entries = total_chunks new_docs /\
    List.length new_docs <= List.length files /\
    (snd (upload_handler files w) = Ok tt ->
     exists msgs,
       page (fst (upload_handler files w))
       = page w ++ msgs
           ++ [EmptyLoader;
               Success ("Processed " ++ str_of_nat (List.length new_docs)
                          ++ "/" ++ str_of_nat (List.length files)
                          ++ " files")]).
Proof.
  destruct (upload_handler_outcome files w)
    as (nd & ne & msgs & cs & Hw & Hl & Hn & Hc & Hr).
  exists nd, ne. rewrite Hw. cbn [session page calls vs documents].
  repeat (split; [reflexivity || assumption |]).
  intros Hok. destruct Hr as [[_ [msgs' ->]] | (e & uf & t & f & Hr & _)].
  - exists msgs'. reflexivity.
  - rewrite Hr in Hok. discriminate.
Qed.

(** X7.  The upload handler calls nothing but, per file, the extractor, the
    chunker, the embedder under the file's name, the store's [add] and the
    clock: it never searches, never generates, never resets the store and
    never embeds without a document name. *)
Theorem upload_makes_only_upload_calls
        (files : list uploaded_file) (w : world) :
  exists cs,
    calls (fst (upload_handler files w)) = calls w ++ cs /\
    Forall upload_call cs /\
    (forall q k, ~ In (CallSearch q k) cs) /\
    (forall q contexts, ~ In (CallGenerate q contexts) cs) /\
    ~ In CallReset cs.
Proof.
  destruct (upload_handler_outcome files w)
    as (nd & ne & msgs & cs & Hw & _ & _ & Hc & _).
  exists cs. rewrite Hw. split; [reflexivity |]. split; [exact Hc |].
  rewrite Forall_forall in Hc.
  repeat split; intros; intros Hin; exact (Hc _ Hin).
Qed.

(** ** Further facts: a whole run *)

Lemma documents_view_run (wd : widgets) (w : world) :
  documents_view wd w =
  match documents (session w) with
  | [] =>
      (World (session w)
             (page w ++ [Markdown feature_card;
                         Info "👆 Start by uploading your documents above!"])
             (calls w), Ok tt)
  | _ :: _ =>
      if get_answer wd then
        answer_handler wd
          (World (session w)
                 (page w ++ [Subheader "📄 Processed Documents";
                             Dataframe (documents (session w));
                             Subheader "💬 Ask a Question"])
                 (calls w))
      else
        (World (session w)
               (page w ++ [Subheader "📄 Processed Documents";
                           Dataframe (documents (session w));
                           Subheader "💬 Ask a Question"])
               (calls w), Ok tt)
  end.
Proof.
  unfold documents_view. unfold bind at 1. unfold get_session.
  destruct (documents (session w)) as [| d ds] eqn:Hd;
    cbn [nonempty].
  - unfold bind, emit. cbn [fst snd session page calls].
    rewrite <- app_assoc. reflexivity.
  - unfold bind at 1. unfold emit at 1.
    unfold bind at 1. unfold emit at 1.
    unfold bind at 1. unfold emit at 1.
    cbn [fst snd session page calls]. rewrite <- !app_assoc.
    destruct (get_answer wd); reflexivity.
Qed.

Lemma answer_handler_calls (wd : widgets) (w : world) :
  exists cs,
    calls (fst (answer_handler wd w)) = calls w ++ cs /\
    Forall (question_call wd) cs /\
    (cs <> [] -> truthy (strip (question wd)) = true).
Proof.
  rewrite answer_handler_run.
  destruct (truthy (strip (question wd))).
  2: { exists []. simpl. rewrite app_nil_r.
       split; [reflexivity |]. split; [constructor | congruence]. }
  destruct (get_embeddings_batch [question wd] None) as [[| q embs] | e].
  - eexists. split; [reflexivity |].
    split; [repeat constructor | reflexivity].
  - destruct (VectorStore.search (vs (session w)) q (Z.to_nat (top_k_of wd)))
      as [[| h hs] | e].
    + eexists. split; [reflexivity |].
      split; [repeat constructor | reflexivity].
    + destruct (generate_answer (question wd) (contexts_of (h :: hs)));
        (eexists; split; [reflexivity |];
         split; [repeat constructor; discriminate | reflexivity]).
    + eexists. split; [reflexivity |].
      split; [repeat constructor | reflexivity].
  - eexists. split; [reflexivity |].
    split; [repeat constructor | reflexivity].
Qed.

(** The documents view ends normally, leaves the session alone, and calls
    only what Get Answer calls, and only with documents in the session. *)
Lemma documents_view_outcome (wd : widgets) (w : world) :
  snd (documents_view wd w) = Ok tt /\
  session (fst (documents_view wd w)) = session w /\
  exists cs,
    calls (fst (documents_view wd w)) = calls w ++ cs /\
    Forall (question_call wd) cs /\
    (cs <> [] ->
     documents (session w) <> [] /\ get_answer wd = true /\
     truthy (strip (question wd)) = true).
Proof.
  rewrite documents_view_run.
  destruct (documents (session w)) as [| d ds] eqn:Hd.
  - split; [reflexivity |]. split; [reflexivity |].
    exists []. simpl. rewrite app_nil_r.
    split; [reflexivity |]. split; [constructor | congruence].
  - destruct (get_answer wd).
    + match goal with
      | |- context [answer_handler wd ?v] =>
          destruct (answer_handler_ok wd v) as [H1 H2];
          destruct (answer_handler_calls wd v) as (cs & H3 & H4 & H5)
      end.
      split; [exact H1 |]. split; [exact H2 |].
      exists cs. split; [exact H3 |]. split; [exact H4 |].
      intros Hn. split; [discriminate |]. split; [reflexivity | exact (H5 Hn)].
    + split; [reflexivity |]. split; [reflexivity |].
      exists []. simpl. rewrite app_nil_r.
      split; [reflexivity |]. split; [constructor | congruence].
Qed.

Lemma script_run (wd : widgets) (w : world) :
  script wd w =
  match (if clear_all_data wd then clear_handler else ret tt) w with
  | (w1, Ok _) =>
      match (if andb (nonempty (uploaded_files wd)) (process_files wd)
             then upload_handler (uploaded_files wd) else ret tt) w1 with
      | (w2, Ok _) => documents_view wd w2
      | (w2, Raise e) => (w2, Raise e)
      end
  | (w1, Raise e) => (w1, Raise e)
  end.
Proof. reflexivity. Qed.

(** A run, as a whole: first the maintenance calls (reset, upload), then
    the calls of Get Answer; the latter only with documents in the session;
    and the only exception that ends a run is the chunker's. *)
Lemma run_outcome (wd : widgets) (s : session_state) :
  exists cs1 cs2,
    calls (fst (run wd s)) = cs1 ++ cs2 /\
    Forall maintenance_call cs1 /\
    Forall (question_call wd) cs2 /\
    (cs2 <> [] ->
     documents (session (fst (run wd s))) <> [] /\ get_answer wd = true /\
     truthy (strip (question wd)) = true) /\
    (forall e,
        snd (run wd s) = Raise e ->
        process_files wd = true /\
        exists uf txt ftype,
          In uf (uploaded_files wd) /\
          extract_text_from_uploaded_file uf = Ok (txt, ftype) /\
          truthy txt = true /\
          chunk_text txt = Raise e).
Proof.
  unfold run. rewrite script_run.
  assert (H1 : exists c1,
             (if clear_all_data wd then clear_handler else ret tt)
               (World s [] [])
             = (World (session
                         (fst ((if clear_all_data wd
                                then clear_handler else ret tt)
                                 (World s [] []))))
                      (page
                         (fst ((if clear_all_data wd
                                then clear_handler else ret tt)
                                 (World s [] []))))
                      c1, Ok tt) /\
             Forall maintenance_call c1).
  { destruct (clear_all_data wd).
    - rewrite clear_handler_run. eexists. split; [reflexivity |].
      repeat constructor.
    - exists []. split; [reflexivity | constructor]. }
  destruct H1 as (c1 & -> & Hc1).
  set (w1 := World _ _ c1).
  destruct (andb (nonempty (uploaded_files wd)) (process_files wd)) eqn:Hup.
  - apply andb_prop in Hup. destruct Hup as [_ Hpr].
    destruct (upload_handler_outcome (uploaded_files wd) w1)
      as (nd & ne & msgs & cs & Hw & _ & _ & Hcs & Hr).
    destruct (upload_handler (uploaded_files wd) w1) as [w2 r2].
    simpl in Hw, Hr. subst w2.
    assert (Hm : Forall maintenance_call (c1 ++ cs)).
    { apply Forall_app. split; [exact Hc1 |].
      eapply Forall_impl; [| exact Hcs]. intros c Hc. right. exact Hc. }
    destruct Hr as [[-> _] | (e & uf & txt & ftype & -> & Hx)].
    + match goal with
      | |- context [documents_view wd ?v] =>
          destruct (documents_view_outcome wd v)
            as (Hok & Hs & c2 & Hc2 & Hq & Hn)
      end.
      exists (c1 ++ cs), c2. rewrite Hc2, Hs, Hok.
      split; [reflexivity |]. split; [exact Hm |]. split; [exact Hq |].
      split; [exact Hn | discriminate].
    + exists (c1 ++ cs), []. cbn [fst snd calls]. rewrite app_nil_r.
      split; [reflexivity |]. split; [exact Hm |].
      split; [constructor |]. split; [congruence |].
      intros e' He'. injection He' as <-.
      split; [exact Hpr |]. exists uf, txt, ftype. exact Hx.
  - change (ret tt w1) with (w1, Ok tt). cbv beta iota.
    destruct (documents_view_outcome wd w1)
      as (Hok & Hs & c2 & Hc2 & Hq & Hn).
    exists c1, c2. rewrite Hc2, Hs, Hok.
    split; [reflexivity |]. split; [exact Hc1 |]. split; [exact Hq |].
    split; [exact Hn | discriminate].
Qed.

(** X8.  A run of the script ends in an exception only when the Process
    Files button was used and [chunk_text] raised that exception on the
    non-empty text of one of the uploaded files: every other failure of a
    collaborator or of the store is caught. *)
Theorem only_chunking_can_crash_a_run
        (wd : widgets) (s : session_state) (e : exn) :
  snd (run wd s) = Raise e ->
  process_files wd = true /\
  exists uf txt ftype,
    In uf (uploaded_files wd) /\
    extract_text_from_uploaded_file uf = Ok (txt, ftype) /\
    truthy txt = true /\
    chunk_text txt = Raise e.
Proof.
  destruct (run_outcome wd s) as (c1 & c2 & _ & _ & _ & _ & H).
  apply H.
Qed.

(** X9.  In every run, the generator is called only with the question as
    typed (not blank) and with at least one context: never without
    retrieved passages. *)
Theorem generator_never_gets_empty_contexts
        (wd : widgets) (s : session_state) (q : string)
        (contexts : list Ctx.t) :
  In (CallGenerate q contexts) (calls (fst (run wd s))) ->
  contexts <> [] /\ q = question wd /\ truthy (strip q) = true.
Proof.
  destruct (run_outcome wd s) as (c1 & c2 & -> & H1 & H2 & H3 & _).
  intros Hin. apply in_app_or in Hin. destruct Hin as [Hin | Hin].
  - rewrite Forall_forall in H1. destruct (H1 _ Hin) as [Hx | Hx];
      [discriminate | destruct Hx].
  - rewrite Forall_forall in H2. destruct (H2 _ Hin) as [-> Hne].
    split; [exact Hne |]. split; [reflexivity |].
    apply H3. intros ->. destruct Hin.
Qed.

(** X10.  In every run, the store is searched only after the sidebar and
    the upload are done, only on a click on Get Answer with a question that
    is not blank, and only when the session holds at least one document
    record at the end of the run. *)
Theorem search_only_with_documents
        (wd : widgets) (s : session_state) (q : embedding) (k : Z) :
  In (CallSearch q k) (calls (fst (run wd s))) ->
  documents (session (fst (run wd s))) <> [] /\
  get_answer wd = true /\
  truthy (strip (question wd)) = true.
Proof.
  destruct (run_outcome wd s) as (c1 & c2 & Hc & H1 & H2 & H3 & _).
  rewrite Hc. intros Hin. apply in_app_or in Hin.
  destruct Hin as [Hin | Hin].
  - rewrite Forall_forall in H1. destruct (H1 _ Hin) as [Hx | Hx];
      [discriminate | destruct Hx].
  - apply H3. intros ->. destruct Hin.
Qed.

(** X11.  A run with a blank question makes no call for the question: no
    embedding without a document name, no search, no generation. *)
Theorem blank_question_makes_no_query_call
        (wd : widgets) (s : session_state) :
  truthy (strip (question wd)) = false ->
  Forall maintenance_call (calls (fst (run wd s))).
Proof.
  intros Hb.
  destruct (run_outcome wd s) as (c1 & c2 & -> & H1 & _ & H3 & _).
  destruct c2 as [| c c2]; [rewrite app_nil_r; exact H1 |].
  assert (Hn : c :: c2 <> []) by discriminate.
  destruct (H3 Hn) as (_ & _ & Ht). congruence.
Qed.

(** X12.  A run that neither clears nor uploads ends normally and leaves
    the session (store and document list) exactly as it found it, whatever
    is asked and whatever the collaborators answer; without a click on Get
    Answer it calls nothing at all. *)
Theorem asking_never_changes_session (wd : widgets) (s : session_state) :
  clear_all_data wd = false ->
  andb (nonempty (uploaded_files wd)) (process_files wd) = false ->
  session (fst (run wd s)) = s /\
  snd (run wd s) = Ok tt /\
  (get_answer wd = false -> calls (fst (run wd s)) = []).
Proof.
  intros Hc Hu. unfold run. rewrite script_run, Hc, Hu.
  repeat match goal with
         | |- context [ret tt ?v] =>
             change (ret tt v) with (v, Ok tt); cbv beta iota
         end.
  destruct (documents_view_outcome wd (World s [] []))
    as (Hok & Hs & c2 & Hc2 & _ & Hn).
  split; [exact Hs |]. split; [exact Hok |].
  intros Hg. rewrite Hc2. destruct c2 as [| c c2]; [reflexivity |].
  assert (Hne : c :: c2 <> []) by discriminate.
  destruct (Hn Hne) as (_ & Hg' & _). congruence.
Qed.

(** X13.  A click on Clear All Data makes the run forget the session it
    started on: the outcome of the run (session, page, calls, result) is
    the same from any two sessions.  When nothing is uploaded in that run,
    it ends on the empty session with the start card on the page and no
    search, even if Get Answer is clicked. *)
Theorem clear_discards_prior_session
        (wd : widgets) (s1 s2 : session_state) :
  clear_all_data wd = true ->
  run wd s1 = run wd s2 /\
  (andb (nonempty (uploaded_files wd)) (process_files wd) = false ->
   run wd s1
   = (World initial_session
            [SidebarSuccess "Cleared all in-memory data";
             Markdown feature_card;
             Info "👆 Start by uploading your documents above!"]
            [CallReset], Ok tt)).
Proof.
  intros Hc. unfold run. rewrite !script_run, Hc, !clear_handler_run.
  split; [reflexivity |].
  intros Hu. rewrite Hu.
  match goal with
  | |- context [ret tt ?v] => change (ret tt v) with (v, Ok tt)
  end.
  cbv beta iota. rewrite documents_view_run. reflexivity.
Qed.

Lemma chunks_accounted_length (docs : list Doc.t) :
  List.length (chunks_accounted docs) = total_chunks docs.
Proof.
  unfold chunks_accounted, total_chunks. rewrite length_flat_map.
  f_equal. apply map_ext. intros d. rewrite length_map, length_seq.
  reflexivity.
Qed.

(** X14.  In every session the interface can reach, the number of entries
    in the store is the sum of the chunk counts shown in the documents
    table. *)
Theorem store_size_is_sum_of_chunk_counts (s : session_state) :
  reachable s ->
  VectorStore.size (vs s) = total_chunks (documents s).
Proof.
  intros Hr. apply reachable_consistent in Hr. unfold consistent in Hr.
  apply (f_equal (@List.length _)) in Hr.
  rewrite length_map, chunks_accounted_length in Hr. exact Hr.
Qed.

(** X15.  A file with text but no chunk (the chunker answers the empty
    list, and the embedder the empty list for it) is still counted as
    processed and gets a document record, with chunk count 0, while the
    store stays as it was. *)
Theorem empty_chunk_list_still_recorded
        (uf : uploaded_file) (n : nat) (w : world) (txt ftype : string) :
  extract_text_from_uploaded_file uf = Ok (txt, ftype) ->
  truthy txt = true ->
  chunk_text txt = Ok [] ->
  get_embeddings_batch [] (Some (name uf)) = Ok [] ->
  snd (process_file uf n w) = Ok (n + 1) /\
  vs (session (fst (process_file uf n w))) = vs (session w) /\
  documents (session (fst (process_file uf n w)))
  = documents (session w)
      ++ [Doc.mk (name uf) (len txt) 0
                 (strftime_now (List.length (calls w) + 4))].
Proof.
  intros He Ht Hc Hg. rewrite process_file_run, He, Ht, Hc, Hg.
  cbn. rewrite app_nil_r. repeat split; reflexivity.
Qed.

(** X16.  The metadata records built for a file give the chunks back: their
    texts are the chunks, in order; their indices count up from 0; and each
    names the file. *)
Theorem metadatas_round_trip (uf : uploaded_file) (chunks : list string) :
  map text (metadatas_of uf chunks) = chunks /\
  map chunk_index (metadatas_of uf chunks) = seq 0 (List.length chunks) /\
  map document (metadatas_of uf chunks)
  = repeat (name uf) (List.length chunks).
Proof.
  unfold metadatas_of, enumerate. generalize 0 as k.
  induction chunks as [| c chunks IH]; intros k; simpl.
  - repeat split; reflexivity.
  - destruct (IH (S k)) as (H1 & H2 & H3).
    rewrite H1, H2, H3. repeat split; reflexivity.
Qed.

(** *** Characters *)

Lemma chars_cons (c : ascii) (s : string) :
  chars (String c s) =
  match chars s with
  | r :: rest =>
      if starts_with_continuation r then String c r :: rest
      else String c EmptyString :: r :: rest
  | [] => [String c EmptyString]
  end.
Proof. reflexivity. Qed.

(** A text is its characters put back together. *)
Lemma join_chars (s : string) : join (chars s) = s.
Proof.
  induction s as [| c s IH]; [reflexivity |].
  rewrite chars_cons. destruct (chars s) as [| r rest].
  - simpl in IH. subst s. reflexivity.
  - destruct (starts_with_continuation r); simpl in *; rewrite IH;
      reflexivity.
Qed.

Lemma chars_well_split (s : string) : well_split (chars s).
Proof.
  induction s as [| c s IH]; [split; constructor |].
  rewrite chars_cons. destruct (chars s) as [| r rest].
  - split; repeat constructor.
  - destruct IH as [Hs Hh]. inversion Hs as [| ? ? Hr Hrest]; subst.
    simpl in Hh.
    destruct (starts_with_continuation r) eqn:Hc.
    + split; [| exact Hh]. constructor; [| exact Hrest].
      destruct r as [| d t]; [discriminate |]. simpl in *.
      rewrite Hc, Hr. reflexivity.
    + split; [repeat constructor; assumption |].
      simpl. constructor; assumption.
Qed.

Lemma chars_char_then (t : string) :
  continuation_only t = true ->
  forall c u,
    Forall (fun g => starts_with_continuation g = false) (chars u) ->
    chars (String c (t ++ u)) = String c t :: chars u.
Proof.
  induction t as [| d t IH]; intros Ht c u Hu.
  - simpl String.append. rewrite chars_cons.
    destruct (chars u) as [| r rest]; [reflexivity |].
    inversion Hu as [| ? ? Hr _]; subst. rewrite Hr. reflexivity.
  - simpl in Ht. apply andb_prop in Ht. destruct Ht as [Hd Ht].
    simpl String.append. rewrite chars_cons, (@IH Ht d u Hu).
    simpl. rewrite Hd. reflexivity.
Qed.

(** Putting well-split characters together and splitting again gives them
    back. *)
Lemma chars_join (l : list string) :
  Forall (fun g => is_char g = true) l ->
  Forall (fun g => starts_with_continuation g = false) (tl l) ->
  chars (join l) = l.
Proof.
  induction l as [| g l IH]; intros Hs Hh; [reflexivity |].
  inversion Hs as [| ? ? Hg Hl]; subst. simpl in Hh.
  assert (Hl' : chars (join l) = l).
  { apply IH; [exact Hl |]. destruct l; [constructor |].
    inversion Hh; assumption. }
  destruct g as [| c t]; [discriminate |]. simpl in Hg.
  change (join (String c t :: l)) with (String c (t ++ join l))%string.
  rewrite (@chars_char_then t Hg c (join l))
    by (rewrite Hl'; exact Hh).
  rewrite Hl'. reflexivity.
Qed.

Lemma well_split_firstn (n : nat) (l : list string) :
  well_split l -> well_split (firstn n l).
Proof.
  intros [Hs Hh]. split.
  - apply Forall_forall. intros g Hg. rewrite Forall_forall in Hs.
    apply Hs. revert Hg. clear. revert l.
    induction n as [| n IH]; intros [| x l] H; simpl in *; try tauto.
    destruct H as [-> | H]; [left; reflexivity | right; exact (IH _ H)].
  - destruct n as [| n]; [constructor |].
    destruct l as [| g l]; [constructor |]. simpl in *.
    apply Forall_forall. intros x Hx. rewrite Forall_forall in Hh.
    apply Hh. revert Hx. clear. revert l.
    induction n as [| n IH]; intros [| y l] H; simpl in *; try tauto.
    destruct H as [-> | H]; [left; reflexivity | right; exact (IH _ H)].
Qed.

Lemma chars_take (n : nat) (s : string) :
  chars (take n s) = firstn n (chars s).
Proof.
  unfold take.
  destruct (@well_split_firstn n (chars s) (chars_well_split s))
    as [Hs Hh].
  apply chars_join; assumption.
Qed.

Lemma take_all (n : nat) (s : string) : len s <= n -> take n s = s.
Proof.
  intros H. unfold take, len in *. rewrite firstn_all2 by exact H.
  apply join_chars.
Qed.

(** X17.  A source box shows the text of its hit through a preview that
    counts characters, not bytes: a text of at most 400 characters is
    shown whole and unmarked; a longer one is cut to exactly its first 400
    characters, followed by an ellipsis. *)
Theorem preview_truncates_at_400 (t : string) (i : nat) (h : hit) :
  (len t <= 400 -> preview t = t) /\
  (400 < len t ->
   preview t = (take 400 t ++ "…")%string /\
   chars (take 400 t) = firstn 400 (chars t) /\
   len (take 400 t) = 400) /\
  source_box i h
  = (nl ++ "                    <div class=" ++ dq ++ "source-box" ++ dq
        ++ ">" ++ nl ++ "                        <strong>Source "
        ++ str_of_nat i ++ ":</strong> " ++ document (hit_metadata h)
        ++ " — score " ++ format_3f (score h) ++ "<br>" ++ nl
        ++ "                        "
        ++ preview (text (hit_metadata h))
        ++ nl ++ "                    </div>" ++ nl
        ++ "                    ")%string.
Proof.
  split; [| split].
  - intros H. unfold preview.
    rewrite (proj2 (Nat.ltb_ge 400 (len t)) H).
    rewrite string_append_nil_r. apply take_all. exact H.
  - intros H. unfold preview.
    rewrite (proj2 (Nat.ltb_lt 400 (len t)) H).
    split; [reflexivity |]. split; [apply chars_take |].
    unfold len in *. rewrite chars_take, length_firstn. lia.
  - apply source_box_text.
Qed.

Lemma process_file_messages (uf : uploaded_file) (n : nat) (w : world) :
  exists msgs,
    page (fst (process_file uf n w)) = page w ++ msgs /\
    filter is_info msgs = [Info ("Processing " ++ name uf)] /\
    ((snd (process_file uf n w) = Ok n /\
      List.length (filter is_problem msgs) = 1) \/
     (snd (process_file uf n w) = Ok (n + 1) /\
      filter is_problem msgs = []) \/
     exists e, snd (process_file uf n w) = Raise e).
Proof.
  rewrite process_file_run.
  destruct (extract_text_from_uploaded_file uf) as [[txt ftype] | e].
  2: { eexists. split; [reflexivity |]. split; [reflexivity |].
       left. split; reflexivity. }
  destruct (truthy txt).
  2: { eexists. split; [reflexivity |]. split; [reflexivity |].
       left. split; reflexivity. }
  destruct (chunk_text txt) as [chunks | e].
  2: { eexists. split; [reflexivity |]. split; [reflexivity |].
       right. right. eexists. reflexivity. }
  destruct (get_embeddings_batch chunks (Some (name uf))) as [embs | e].
  2: { eexists. split; [reflexivity |]. split; [reflexivity |].
       left. split; reflexivity. }
  destruct (VectorStore.add embs (metadatas_of uf chunks) (vs (session w)))
    as [vs' | e].
  2: { eexists. split; [reflexivity |]. split; [reflexivity |].
       left. split; reflexivity. }
  eexists. split; [reflexivity |]. split; [reflexivity |].
  right. left. split; reflexivity.
Qed.

(** X19.  When the loop over a batch ends normally, every file is accounted
    for on the page: the files are announced one by one in upload order,
    and each file is either counted as processed or reported by exactly
    one error or warning, so that the counter's increase and the number of
    such reports add up to the number of files. *)
Theorem every_file_accounted_for (files : list uploaded_file) :
  forall n n' w,
    snd (for_files files n w) = Ok n' ->
    exists msgs,
      page (fst (for_files files n w)) = page w ++ msgs /\
      filter is_info msgs
      = map (fun uf => Info ("Processing " ++ name uf)) files /\
      n <= n' /\
      (n' - n) + List.length (filter is_problem msgs) = List.length files.
Proof.
  induction files as [| uf rest IH]; intros n n' w H.
  - simpl in H. unfold ret in H. simpl in H. injection H as <-.
    exists []. simpl. unfold ret. simpl. rewrite app_nil_r.
    repeat split; lia.
  - rewrite for_files_cons in H |- *.
    destruct (process_file_messages uf n w) as (m1 & Hp & Hi & Hr).
    destruct (process_file uf n w) as [w1 r1]. simpl in Hp, Hr.
    destruct Hr as [[-> Hc] | [[-> Hc] | [e ->]]]; [| | discriminate].
    + destruct (IH _ _ _ H) as (m2 & Hp2 & Hi2 & Hle & Hsum).
      exists (m1 ++ m2). rewrite Hp2, Hp, <- app_assoc.
      split; [reflexivity |]. rewrite !filter_app, Hi, Hi2, length_app, Hc.
      split; [reflexivity |]. split; [exact Hle |]. simpl. lia.
    + destruct (IH _ _ _ H) as (m2 & Hp2 & Hi2 & Hle & Hsum).
      exists (m1 ++ m2). rewrite Hp2, Hp, <- app_assoc.
      split; [reflexivity |]. rewrite !filter_app, Hi, Hi2, length_app, Hc.
      split; [reflexivity |]. split; [lia |]. simpl. lia.
Qed.

End ScriptFacts.

(** ** The theorems at concrete inputs, with the toy collaborators *)

Lemma add_length_mismatch_reported_witness :
  List.length [[1; 0]%R]
  <> List.length (metadatas_of Sample.short ["x"; "y"]) /\
  VectorStore.add [[1; 0]%R] (metadatas_of Sample.short ["x"; "y"])
                  (vs (session Sample.fresh))
  = Raise (StoreError "length mismatch") /\
  vs_add [[1; 0]%R] (metadatas_of Sample.short ["x"; "y"]) Sample.fresh
  = (World (session Sample.fresh) (page Sample.fresh)
           (calls Sample.fresh
              ++ [CallAdd [[1; 0]%R]
                          (metadatas_of Sample.short ["x"; "y"])]),
     Raise (StoreError "length mismatch")) /\
  process_file (C := Sample.collaborators) Sample.short 0 Sample.fresh
  = (logged Sample.fresh
            [Info "Processing short.txt";
             Error "Error adding vectors for short.txt: length mismatch"]
            [CallExtract Sample.short; CallChunk "x y";
             CallEmbed ["x"; "y"] (Some "short.txt");
             CallAdd [[1; 0]%R] (metadatas_of Sample.short ["x"; "y"])],
     Ok 0).
Proof.
  assert (H : List.length [[1; 0]%R]
              <> List.length (metadatas_of Sample.short ["x"; "y"])).
  { simpl. lia. }
  destruct (@add_length_mismatch_reported
              Sample.collaborators [[1; 0]%R]
              (metadatas_of Sample.short ["x"; "y"]) Sample.fresh H)
    as (H1 & H2 & H3).
  split; [exact H |]. split; [exact H1 |]. split; [exact H2 |].
  exact (H3 Sample.short 0 "x y" "txt" ["x"; "y"]
            eq_refl eq_refl eq_refl eq_refl eq_refl).
Defined.

Lemma failed_file_does_not_stop_batch_witness :
  fails_at (C := Sample.collaborators) Sample.broken
           (vs (session Sample.fresh)) Extraction (Failure "not a PDF")
           [CallExtract Sample.broken] /\
  process_file (C := Sample.collaborators) Sample.broken 0 Sample.fresh
  = (logged Sample.fresh
            [Info "Processing broken.pdf";
             Error "Error extracting text from broken.pdf: not a PDF"]
            [CallExtract Sample.broken], Ok 0) /\
  for_files (C := Sample.collaborators)
            [Sample.broken; Sample.notes] 0 Sample.fresh
  = for_files (C := Sample.collaborators) [Sample.notes] 0
      (logged Sample.fresh
              [Info "Processing broken.pdf";
               Error "Error extracting text from broken.pdf: not a PDF"]
              [CallExtract Sample.broken]).
Proof.
  assert (H : fails_at (C := Sample.collaborators) Sample.broken
                       (vs (session Sample.fresh)) Extraction
                       (Failure "not a PDF") [CallExtract Sample.broken]).
  { simpl. split; reflexivity. }
  split; [exact H |].
  exact (@failed_file_does_not_stop_batch
           Sample.collaborators Sample.broken [Sample.notes] 0
           Sample.fresh Extraction (Failure "not a PDF")
           [CallExtract Sample.broken] H).
Defined.

Lemma stored_metadata_describes_chunk_witness :
  process_file (C := Sample.collaborators) Sample.notes 0 Sample.fresh
  = (fst (process_file (C := Sample.collaborators)
                       Sample.notes 0 Sample.fresh), Ok (0 + 1)) /\
  exists chunks embeddings,
    forall i chunk,
      nth_error chunks i = Some chunk ->
      exists emb,
        nth_error embeddings i = Some emb /\
        nth_error
          (vs (session (fst (process_file (C := Sample.collaborators)
                                          Sample.notes 0 Sample.fresh))))
          (VectorStore.size (vs (session Sample.fresh)) + i)
        = Some (emb, Metadata (name Sample.notes) i chunk).
Proof.
  assert (H : process_file (C := Sample.collaborators)
                           Sample.notes 0 Sample.fresh
              = (fst (process_file (C := Sample.collaborators)
                                   Sample.notes 0 Sample.fresh),
                 Ok (0 + 1))).
  { vm_compute. reflexivity. }
  split; [exact H |].
  destruct (proj1 (@stored_metadata_describes_chunk
                     Sample.collaborators Sample.notes 0
                     Sample.fresh _) H)
    as (txt & ftype & chunks & embs & _ & _ & _ & _ & _ & _ & _ & Hn).
  exists chunks, embs. exact Hn.
Defined.

Lemma empty_text_file_skipped_witness :
  extract_text_from_uploaded_file (Collaborators := Sample.collaborators)
                                  Sample.blank = Ok ("", "txt") /\
  process_file (C := Sample.collaborators) Sample.blank 0 Sample.fresh
  = (logged Sample.fresh
            [Info "Processing blank.txt";
             Warning "No text found in blank.txt"]
            [CallExtract Sample.blank], Ok 0) /\
  upload_handler (C := Sample.collaborators) [Sample.blank] Sample.fresh
  = (logged Sample.fresh
            [ShowLoader "Processing uploaded files...";
             Info "Processing blank.txt";
             Warning "No text found in blank.txt";
             EmptyLoader;
             Success "Processed 0/1 files"]
            [CallExtract Sample.blank], Ok tt).
Proof.
  assert (H : extract_text_from_uploaded_file
                (Collaborators := Sample.collaborators) Sample.blank
              = Ok ("", "txt")) by reflexivity.
  destruct (@empty_text_file_skipped
              Sample.collaborators Sample.blank "txt" [] 0
              Sample.fresh H) as (H1 & _ & H3).
  split; [exact H |]. split; [exact H1 | exact H3].
Defined.

Lemma session_stays_consistent_witness :
  reachable (C := Sample.collaborators)
    (session (fst (run (C := Sample.collaborators)
                       (Widgets false [Sample.notes; Sample.short] true
                                "" None false)
                       initial_session))) /\
  consistent
    (session (fst (run (C := Sample.collaborators)
                       (Widgets false [Sample.notes; Sample.short] true
                                "" None false)
                       initial_session))).
Proof.
  assert (H : reachable (C := Sample.collaborators)
                (session (fst (run (C := Sample.collaborators)
                                   (Widgets false
                                      [Sample.notes; Sample.short] true
                                      "" None false)
                                   initial_session)))).
  { apply reachable_run. apply reachable_initial. }
  split; [exact H |].
  exact (proj1 (@session_stays_consistent Sample.collaborators) _ H).
Defined.

Lemma failed_generation_shows_fixed_error_witness :
  truthy (strip (question Sample.ask_why)) = true /\
  get_embeddings_batch (Collaborators := Sample.collaborators)
                       [question Sample.ask_why] None
  = Ok [[1; 0]%R] /\
  VectorStore.search (vs (session Sample.one_chunk_world)) [1; 0]%R
                     (Z.to_nat (top_k_of Sample.ask_why))
  = Ok [Hit 1 Sample.m1] /\
  [Hit 1 Sample.m1] <> [] /\
  generate_answer (Collaborators := Sample.collaborators)
                  (question Sample.ask_why)
                  (contexts_of [Hit 1 Sample.m1])
  = Raise (Failure "model overloaded") /\
  answer_handler (C := Sample.collaborators) Sample.ask_why
                 Sample.one_chunk_world
  = (logged Sample.one_chunk_world
       ([ShowLoader "Searching relevant passages...";
         EmptyLoader;
         ShowLoader "Generating answer...";
         Error "Answer generation error: model overloaded";
         EmptyLoader;
         Markdown
           (nl ++ "                <div class=" ++ dq ++ "answer-box" ++ dq
               ++ ">" ++ nl ++ "                    <h3>🤖 Answer</h3>"
               ++ nl
               ++ "                    <p>Error: Unable to generate answer.</p>"
               ++ nl ++ "                </div>" ++ nl
               ++ "                ");
         Subheader "📖 Sources"]
          ++ [Markdown (source_box (C := Sample.collaborators) 1
                                   (Hit 1 Sample.m1))])
       [CallEmbed ["why?"] None;
        CallSearch [1; 0]%R 4;
        CallGenerate "why?" (contexts_of [Hit 1 Sample.m1])], Ok tt).
Proof.
  assert (Hs : VectorStore.search (vs (session Sample.one_chunk_world))
                                  [1; 0]%R
                                  (Z.to_nat (top_k_of Sample.ask_why))
               = Ok [Hit 1 Sample.m1]).
  { exact (VectorStoreFacts.search_single Sample.m1 3). }
  assert (Hn : [Hit 1 Sample.m1] <> []) by discriminate.
  split; [reflexivity |]. split; [reflexivity |]. split; [exact Hs |].
  split; [exact Hn |]. split; [reflexivity |].
  exact (@failed_generation_shows_fixed_error
           Sample.collaborators Sample.ask_why Sample.one_chunk_world
           [1; 0]%R [] [Hit 1 Sample.m1] (Failure "model overloaded")
           eq_refl eq_refl Hs Hn eq_refl).
Defined.

Lemma search_top_k_within_slider_bounds_witness :
  top_k_position Sample.ask_why = None /\
  top_k_of Sample.ask_why = 4%Z /\
  In (CallSearch [1; 0]%R 4)
     (calls (fst (run (C := Sample.collaborators) Sample.ask_why
                      Sample.storeless_session))) /\
  4%Z = top_k_of Sample.ask_why /\ (1 <= 4 <= 10)%Z.
Proof.
  assert (H : In (CallSearch [1; 0]%R 4)
                 (calls (fst (run (C := Sample.collaborators)
                                  Sample.ask_why
                                  Sample.storeless_session)))).
  { vm_compute. tauto. }
  destruct (@search_top_k_within_slider_bounds
              Sample.collaborators Sample.ask_why
              Sample.storeless_session) as (_ & H4 & Hall).
  split; [reflexivity |]. split; [exact (H4 eq_refl) |].
  split; [exact H |]. exact (Hall _ _ H).
Defined.

(** ** The further theorems at concrete inputs *)

Lemma sample_answer_calls (p : list message) (c : list call) :
  calls (fst (answer_handler (C := Sample.collaborators) Faulty.ask
                             (World Sample.one_chunk_session p c)))
  = c ++ [CallEmbed ["what?"] None;
          CallSearch [1; 0]%R 4;
          CallGenerate "what?" (contexts_of [Hit 1 Sample.m1])].
Proof.
  rewrite answer_handler_run.
  change (truthy (strip (question Faulty.ask))) with true. cbv iota.
  change (get_embeddings_batch (Collaborators := Sample.collaborators)
            [question Faulty.ask] None)
    with (Ok [[1; 0]%R] : result (list embedding)).
  cbv beta iota.
  change (vs (session (World Sample.one_chunk_session p c)))
    with [([1; 0]%R, Sample.m1)].
  change (Z.to_nat (top_k_of Faulty.ask)) with 4.
  rewrite (VectorStoreFacts.search_single Sample.m1 3). cbv beta iota.
  change (generate_answer (Collaborators := Sample.collaborators)
            (question Faulty.ask) (contexts_of [Hit 1 Sample.m1]))
    with (Ok "because" : result string).
  reflexivity.
Qed.

Lemma sample_run_calls :
  calls (fst (run (C := Sample.collaborators) Faulty.ask
                  Sample.one_chunk_session))
  = [CallEmbed ["what?"] None;
     CallSearch [1; 0]%R 4;
     CallGenerate "what?" (contexts_of [Hit 1 Sample.m1])].
Proof.
  unfold run. rewrite script_run.
  change (clear_all_data Faulty.ask) with false.
  change (andb (nonempty (uploaded_files Faulty.ask))
               (process_files Faulty.ask)) with false.
  cbv beta iota.
  repeat match goal with
         | |- context [ret tt ?v] =>
             change (ret tt v) with (v, Ok tt); cbv beta iota
         end.
  rewrite documents_view_run.
  change (get_answer Faulty.ask) with true.
  cbn [session documents Sample.one_chunk_session].
  cbv beta iota.
  rewrite sample_answer_calls. reflexivity.
Qed.

Lemma search_failure_recovered_witness :
  truthy (strip (question Faulty.ask)) = true /\
  query_fails (C := Faulty.collaborators) Faulty.ask
              (vs (session Sample.one_chunk_world))
              (Failure "service unavailable")
              [CallEmbed ["what?"] None] /\
  answer_handler (C := Faulty.collaborators) Faulty.ask
                 Sample.one_chunk_world
  = (logged Sample.one_chunk_world
            [ShowLoader "Searching relevant passages...";
             Error "Search error: service unavailable";
             EmptyLoader;
             Warning "No relevant passages found. Please upload documents first."]
            [CallEmbed ["what?"] None], Ok tt).
Proof.
  assert (H : query_fails (C := Faulty.collaborators) Faulty.ask
                          (vs (session Sample.one_chunk_world))
                          (Failure "service unavailable")
                          [CallEmbed ["what?"] None]).
  { left. split; reflexivity. }
  split; [reflexivity |]. split; [exact H |].
  exact (@search_failure_recovered
           Faulty.collaborators Faulty.ask Sample.one_chunk_world
           (Failure "service unavailable") [CallEmbed ["what?"] None]
           eq_refl H).
Defined.

Lemma no_hits_warns_without_generating_witness :
  truthy (strip (question Sample.ask_why)) = true /\
  get_embeddings_batch (Collaborators := Sample.collaborators)
                       [question Sample.ask_why] None
  = Ok [[1; 0]%R] /\
  VectorStore.search (vs Sample.storeless_session) [1; 0]%R
                     (Z.to_nat (top_k_of Sample.ask_why))
  = Ok [] /\
  answer_handler (C := Sample.collaborators) Sample.ask_why
                 (World Sample.storeless_session [] [])
  = (logged (World Sample.storeless_session [] [])
            [ShowLoader "Searching relevant passages...";
             EmptyLoader;
             Warning "No relevant passages found. Please upload documents first."]
            [CallEmbed ["why?"] None; CallSearch [1; 0]%R 4], Ok tt).
Proof.
  assert (Hs : VectorStore.search (vs Sample.storeless_session) [1; 0]%R
                                  (Z.to_nat (top_k_of Sample.ask_why))
               = Ok []).
  { exact (VectorStoreFacts.search_empty [1; 0]%R 4). }
  split; [reflexivity |]. split; [reflexivity |]. split; [exact Hs |].
  exact (@no_hits_warns_without_generating
           Sample.collaborators Sample.ask_why
           (World Sample.storeless_session [] []) [1; 0]%R []
           eq_refl eq_refl Hs).
Defined.

Lemma successful_answer_displayed_witness :
  truthy (strip (question Faulty.ask)) = true /\
  VectorStore.search (vs (session Sample.one_chunk_world)) [1; 0]%R
                     (Z.to_nat (top_k_of Faulty.ask))
  = Ok [Hit 1 Sample.m1] /\
  generate_answer (Collaborators := Sample.collaborators)
                  (question Faulty.ask) (contexts_of [Hit 1 Sample.m1])
  = Ok "because" /\
  answer_handler (C := Sample.collaborators) Faulty.ask
                 Sample.one_chunk_world
  = (logged Sample.one_chunk_world
       ([ShowLoader "Searching relevant passages...";
         EmptyLoader;
         ShowLoader "Generating answer...";
         EmptyLoader;
         Markdown
           (nl ++ "                <div class=" ++ dq ++ "answer-box" ++ dq
               ++ ">" ++ nl ++ "                    <h3>🤖 Answer</h3>"
               ++ nl
               ++ "                    <p>because</p>"
               ++ nl ++ "                </div>" ++ nl
               ++ "                ");
         Subheader "📖 Sources"]
          ++ sources_of (C := Sample.collaborators) [Hit 1 Sample.m1])
       [CallEmbed ["what?"] None;
        CallSearch [1; 0]%R 4;
        CallGenerate "what?" (contexts_of [Hit 1 Sample.m1])], Ok tt).
Proof.
  assert (Hs : VectorStore.search (vs (session Sample.one_chunk_world))
                                  [1; 0]%R (Z.to_nat (top_k_of Faulty.ask))
               = Ok [Hit 1 Sample.m1]).
  { exact (VectorStoreFacts.search_single Sample.m1 3). }
  assert (Hn : [Hit 1 Sample.m1] <> []) by discriminate.
  split; [reflexivity |]. split; [exact Hs |]. split; [reflexivity |].
  exact (proj1 (@successful_answer_displayed
                  Sample.collaborators Faulty.ask Sample.one_chunk_world
                  [1; 0]%R [] [Hit 1 Sample.m1] "because"
                  eq_refl eq_refl Hs Hn eq_refl)).
Defined.

Lemma chunk_failure_aborts_batch_witness :
  extract_text_from_uploaded_file (Collaborators := Faulty.collaborators)
                                  Faulty.boom = Ok ("boom", "txt") /\
  truthy "boom" = true /\
  chunk_text (Collaborators := Faulty.collaborators) "boom"
  = Raise (Failure "chunker crashed") /\
  run (C := Faulty.collaborators) Faulty.upload_boom initial_session
  = (World initial_session
           [ShowLoader "Processing uploaded files...";
            Info "Processing boom.txt"]
           [CallExtract Faulty.boom; CallChunk "boom"],
     Raise (Failure "chunker crashed")).
Proof.
  split; [reflexivity |]. split; [reflexivity |]. split; [reflexivity |].
  exact (proj2 (proj2 (@chunk_failure_aborts_batch
                         Faulty.collaborators Faulty.boom [Faulty.fine] 0
                         Sample.fresh "boom" "txt"
                         (Failure "chunker crashed")
                         eq_refl eq_refl eq_refl))
           Faulty.upload_boom initial_session eq_refl eq_refl eq_refl).
Defined.

Lemma upload_appends_and_counts_witness :
  snd (upload_handler (C := Sample.collaborators)
                      [Sample.notes; Sample.blank] Sample.fresh) = Ok tt /\
  exists new_docs new_entries,
    documents (session (fst (upload_handler (C := Sample.collaborators)
                               [Sample.notes; Sample.blank] Sample.fresh)))
    = documents (session Sample.fresh) ++ new_docs /\
    vs (session (fst (upload_handler (C := Sample.collaborators)
                        [Sample.notes; Sample.blank] Sample.fresh)))
    = vs (session Sample.fresh) ++ new_entries /\
    List.length new_entries = total_chunks new_docs /\
    List.length new_docs <= 2 /\
    exists msgs,
      page (fst (upload_handler (C := Sample.collaborators)
                   [Sample.notes; Sample.blank] Sample.fresh))
      = page Sample.fresh ++ msgs
          ++ [EmptyLoader;
              Success ("Processed " ++ str_of_nat (List.length new_docs)
                         ++ "/" ++ str_of_nat 2 ++ " files")].
Proof.
  assert (H : snd (upload_handler (C := Sample.collaborators)
                                  [Sample.notes; Sample.blank] Sample.fresh)
              = Ok tt).
  { vm_compute. reflexivity. }
  split; [exact H |].
  destruct (@upload_appends_and_counts
              Sample.collaborators [Sample.notes; Sample.blank] Sample.fresh)
    as (nd & ne & H1 & H2 & H3 & H4 & H5).
  exists nd, ne. repeat (split; [assumption |]). exact (H5 H).
Defined.

Lemma only_chunking_can_crash_a_run_witness :
  snd (run (C := Faulty.collaborators) Faulty.upload_boom initial_session)
  = Raise (Failure "chunker crashed") /\
  process_files Faulty.upload_boom = true /\
  exists uf txt ftype,
    In uf (uploaded_files Faulty.upload_boom) /\
    extract_text_from_uploaded_file (Collaborators := Faulty.collaborators)
                                    uf = Ok (txt, ftype) /\
    truthy txt = true /\
    chunk_text (Collaborators := Faulty.collaborators) txt
    = Raise (Failure "chunker crashed").
Proof.
  assert (H : snd (run (C := Faulty.collaborators) Faulty.upload_boom
                       initial_session)
              = Raise (Failure "chunker crashed")).
  { vm_compute. reflexivity. }
  split; [exact H |].
  exact (@only_chunking_can_crash_a_run
           Faulty.collaborators Faulty.upload_boom initial_session
           (Failure "chunker crashed") H).
Defined.

Lemma generator_never_gets_empty_contexts_witness :
  In (CallGenerate "what?" (contexts_of [Hit 1 Sample.m1]))
     (calls (fst (run (C := Sample.collaborators) Faulty.ask
                      Sample.one_chunk_session))) /\
  contexts_of [Hit 1 Sample.m1] <> [] /\
  "what?" = question Faulty.ask /\
  truthy (strip "what?") = true.
Proof.
  assert (H : In (CallGenerate "what?" (contexts_of [Hit 1 Sample.m1]))
                 (calls (fst (run (C := Sample.collaborators) Faulty.ask
                                  Sample.one_chunk_session)))).
  { rewrite sample_run_calls. simpl. tauto. }
  split; [exact H |].
  exact (@generator_never_gets_empty_contexts
           Sample.collaborators Faulty.ask Sample.one_chunk_session
           "what?" (contexts_of [Hit 1 Sample.m1]) H).
Defined.

Lemma search_only_with_documents_witness :
  In (CallSearch [1; 0]%R 4)
     (calls (fst (run (C := Sample.collaborators) Faulty.ask
                      Sample.one_chunk_session))) /\
  documents (session (fst (run (C := Sample.collaborators) Faulty.ask
                               Sample.one_chunk_session))) <> [] /\
  get_answer Faulty.ask = true /\
  truthy (strip (question Faulty.ask)) = true.
Proof.
  assert (H : In (CallSearch [1; 0]%R 4)
                 (calls (fst (run (C := Sample.collaborators) Faulty.ask
                                  Sample.one_chunk_session)))).
  { rewrite sample_run_calls. simpl. tauto. }
  split; [exact H |].
  exact (@search_only_with_documents
           Sample.collaborators Faulty.ask Sample.one_chunk_session
           [1; 0]%R 4%Z H).
Defined.

Lemma blank_question_makes_no_query_call_witness :
  truthy (strip (question Scenarios.ask_blank)) = false /\
  Forall maintenance_call
         (calls (fst (run (C := Sample.collaborators) Scenarios.ask_blank
                          Sample.one_chunk_session))).
Proof.
  split; [reflexivity |].
  exact (@blank_question_makes_no_query_call
           Sample.collaborators Scenarios.ask_blank
           Sample.one_chunk_session eq_refl).
Defined.

Lemma asking_never_changes_session_witness :
  clear_all_data Faulty.ask = false /\
  andb (nonempty (uploaded_files Faulty.ask)) (process_files Faulty.ask)
  = false /\
  session (fst (run (C := Sample.collaborators) Faulty.ask
                    Sample.one_chunk_session))
  = Sample.one_chunk_session /\
  snd (run (C := Sample.collaborators) Faulty.ask Sample.one_chunk_session)
  = Ok tt.
Proof.
  split; [reflexivity |]. split; [reflexivity |].
  destruct (@asking_never_changes_session
              Sample.collaborators Faulty.ask Sample.one_chunk_session
              eq_refl eq_refl) as (H1 & H2 & _).
  split; [exact H1 | exact H2].
Defined.

Lemma clear_discards_prior_session_witness :
  clear_all_data Scenarios.clear_and_ask = true /\
  run (C := Sample.collaborators) Scenarios.clear_and_ask
      Sample.one_chunk_session
  = run (C := Sample.collaborators) Scenarios.clear_and_ask
        initial_session /\
  run (C := Sample.collaborators) Scenarios.clear_and_ask
      Sample.one_chunk_session
  = (World initial_session
           [SidebarSuccess "Cleared all in-memory data";
            Markdown feature_card;
            Info "👆 Start by uploading your documents above!"]
           [CallReset], Ok tt).
Proof.
  split; [reflexivity |].
  destruct (@clear_discards_prior_session
              Sample.collaborators Scenarios.clear_and_ask
              Sample.one_chunk_session initial_session eq_refl)
    as (H1 & H2).
  split; [exact H1 | exact (H2 eq_refl)].
Defined.

Lemma store_size_is_sum_of_chunk_counts_witness :
  reachable (C := Sample.collaborators)
    (session (fst (run (C := Sample.collaborators) Scenarios.upload_two
                       initial_session))) /\
  VectorStore.size
    (vs (session (fst (run (C := Sample.collaborators) Scenarios.upload_two
                           initial_session))))
  = total_chunks
      (documents (session (fst (run (C := Sample.collaborators)
                                    Scenarios.upload_two initial_session)))).
Proof.
  assert (H : reachable (C := Sample.collaborators)
                (session (fst (run (C := Sample.collaborators)
                                   Scenarios.upload_two initial_session)))).
  { apply reachable_run. apply reachable_initial. }
  split; [exact H |].
  exact (@store_size_is_sum_of_chunk_counts Sample.collaborators _ H).
Defined.

Lemma empty_chunk_list_still_recorded_witness :
  extract_text_from_uploaded_file (Collaborators := Faulty.collaborators)
                                  Faulty.none = Ok ("none", "txt") /\
  truthy "none" = true /\
  chunk_text (Collaborators := Faulty.collaborators) "none" = Ok [] /\
  get_embeddings_batch (Collaborators := Faulty.collaborators)
                       [] (Some (name Faulty.none)) = Ok [] /\
  snd (process_file (C := Faulty.collaborators) Faulty.none 0 Sample.fresh)
  = Ok (0 + 1) /\
  vs (session (fst (process_file (C := Faulty.collaborators)
                                 Faulty.none 0 Sample.fresh)))
  = vs (session Sample.fresh) /\
  documents (session (fst (process_file (C := Faulty.collaborators)
                                        Faulty.none 0 Sample.fresh)))
  = documents (session Sample.fresh)
      ++ [Doc.mk "none.txt" 4 0 "2025-01-01 12:00"].
Proof.
  split; [reflexivity |]. split; [reflexivity |]. split; [reflexivity |].
  split; [reflexivity |].
  exact (@empty_chunk_list_still_recorded
           Faulty.collaborators Faulty.none 0 Sample.fresh "none" "txt"
           eq_refl eq_refl eq_refl eq_refl).
Defined.

Lemma preview_truncates_at_400_witness :
  len Scenarios.accents <= 400 /\
  preview Scenarios.accents = Scenarios.accents /\
  400 < len Scenarios.long_text /\
  preview Scenarios.long_text
  = (take 400 Scenarios.long_text ++ "…")%string /\
  chars (take 400 Scenarios.long_text)
  = firstn 400 (chars Scenarios.long_text) /\
  len (take 400 Scenarios.long_text) = 400.
Proof.
  assert (H1 : len Scenarios.accents <= 400) by (vm_compute; lia).
  assert (H2 : 400 < len Scenarios.long_text) by (vm_compute; lia).
  destruct (@preview_truncates_at_400
              Sample.collaborators Scenarios.accents 1 (Hit 1 Sample.m1))
    as (Hs & _ & _).
  destruct (@preview_truncates_at_400
              Sample.collaborators Scenarios.long_text 1 (Hit 1 Sample.m1))
    as (_ & Hl & _).
  split; [exact H1 |]. split; [exact (Hs H1) |]. split; [exact H2 |].
  exact (Hl H2).
Defined.

Lemma every_file_accounted_for_witness :
  snd (for_files (C := Sample.collaborators)
                 [Sample.notes; Sample.blank; Sample.broken; Sample.short]
                 0 Sample.fresh) = Ok 1 /\
  exists msgs,
    page (fst (for_files (C := Sample.collaborators)
                 [Sample.notes; Sample.blank; Sample.broken; Sample.short]
                 0 Sample.fresh))
    = page Sample.fresh ++ msgs /\
    filter is_info msgs
    = map (fun uf => Info ("Processing " ++ name uf))
          [Sample.notes; Sample.blank; Sample.broken; Sample.short] /\
    0 <= 1 /\
    (1 - 0) + List.length (filter is_problem msgs) = 4.
Proof.
  assert (H : snd (for_files (C := Sample.collaborators)
                     [Sample.notes; Sample.blank; Sample.broken;
                      Sample.short] 0 Sample.fresh) = Ok 1).
  { vm_compute. reflexivity. }
  split; [exact H |].
  exact (@every_file_accounted_for
           Sample.collaborators
           [Sample.notes; Sample.blank; Sample.broken; Sample.short]
           0 1 Sample.fresh H).
Defined.

End AppFacts.
